(** * The recording-to-tool pipeline of [recorder.py]

    A shallow embedding of the workflow functions of
    [src/shared/legacy-streamlit-pages/recorder.py]: the connection gate
    ([check_extension_connection]), the session lifecycle
    ([start_recording_with_extension], [get_recording_status],
    [stop_recording]), the tool generator ([generate_tool_code]) and the tool
    persister ([save_tool_to_resources], [save_local_copy]).

    The Python code talks to three collaborators: the backend over HTTP, the
    file system and the Streamlit front end ([st.session_state] and the
    widgets).  Each function is embedded as a computation in a monad [M] that
    threads the client-side world (session state, files, the log of effects)
    and may raise a Python exception; what the collaborators answer is read
    from an environment [env], so that every theorem quantifies over all
    backends, disks, clocks and random generators.

    Conventions.  A Python [str] is a [string] of bytes, its UTF-8 encoding:
    lengths, slices and white-space tests go by code points, and [lower]
    agrees with Python on ASCII text.  A value
    that comes out of a JSON body or of [st.session_state] is a [json]; a
    parameter annotated [str] is a [string] unless the caller hands over an
    unchecked value.  What a widget returns in one run of the script (the
    text typed, whether a button was pressed) is an argument of the function
    that reads it.  The log records every request sent, every file-system
    operation attempted and every call that shows something, in order. *)

From Stdlib Require Import String Ascii ZArith List Bool Lia.
From stdpp Require Import gmap strings list fin_maps.

Open Scope string_scope.

(** ** Python values *)

(** Values decoded from JSON bodies, which is also what the code stores in
    [st.session_state].  Numbers are the integral ones: the only arithmetic
    the code performs is [session['duration'] // 1000]. *)
#[local] Unset Elimination Schemes.
Inductive json : Type :=
| JNull
| JBool (b : bool)
| JNum (z : Z)
| JStr (s : string)
| JList (l : list json)
| JObj (d : list (string * json)).
#[local] Set Elimination Schemes.

(** Python truth value, as used by [not x], [if x] and [x and y]. *)
Definition truthy (v : json) : bool :=
  match v with
  | JNull => false
  | JBool b => b
  | JNum z => negb (z =? 0)%Z
  | JStr s => negb (String.eqb s "")
  | JList l => match l with [] => false | _ => true end
  | JObj d => match d with [] => false | _ => true end
  end.

(** [x and y] returns one of its operands, not a boolean. *)
Definition py_and (x y : json) : json := if truthy x then y else x.

(** Lookup in a decoded JSON object. *)
Fixpoint assoc (k : string) (d : list (string * json)) : option json :=
  match d with
  | [] => None
  | (k', v) :: d' => if String.eqb k k' then Some v else assoc k d'
  end.

(** ** Exceptions *)

Inductive net_error := NetTimeout | NetConnectionError | NetOther.

(** The exception classes the modelled code can meet.  [RerunException] is
    what [st.rerun()] raises; it derives from [BaseException], so an
    [except Exception] clause lets it through and a bare [except:] stops
    it. *)
Inductive exn :=
| RequestsError (n : net_error)
| JSONDecodeError
| KeyError (k : string)
| TypeError
| AttributeError
| NameError
| IndexError
| OSError
| RerunException.

Definition is_Exception (e : exn) : bool :=
  match e with RerunException => false | _ => true end.

Definition is_Timeout (e : exn) : bool :=
  match e with RequestsError NetTimeout => true | _ => false end.

Definition is_ConnectionError (e : exn) : bool :=
  match e with RequestsError NetConnectionError => true | _ => false end.

(** ** Text *)

(** An f-string is kept as the sequence of its literal parts and of the
    values interpolated between them. *)
Inductive piece :=
| Lit (s : string)
| Val (v : json)
| ExnStr (e : exn).

Definition fstring := list piece.

(** [str.replace(old, new)] for a non-empty [old] (every call site passes a
    non-empty literal): occurrences are replaced from left to right and do
    not overlap.  [skip] counts the characters of a matched occurrence that
    are still to be dropped. *)
Fixpoint replace_from (old new : string) (skip : nat) (s : string) : string :=
  match s with
  | EmptyString => EmptyString
  | String c s' =>
      match skip with
      | S k => replace_from old new k s'
      | O =>
          if String.prefix old s
          then new +:+ replace_from old new (String.length old - 1) s'
          else String c (replace_from old new 0 s')
      end
  end.

Definition replace (old new s : string) : string := replace_from old new 0 s.

(** [str.lower()] on the ASCII letters; other bytes are left as they are. *)
Definition lower_ascii (c : ascii) : ascii :=
  let n := nat_of_ascii c in
  if (65 <=? n)%nat && (n <=? 90)%nat then ascii_of_nat (n + 32) else c.

Fixpoint lower (s : string) : string :=
  match s with
  | EmptyString => EmptyString
  | String c s' => String (lower_ascii c) (lower s')
  end.

(** [os.path.join(a, b)] of [posixpath]. *)
Definition ends_with_slash (s : string) : bool :=
  match String.get (String.length s - 1) s with
  | Some c => Ascii.eqb c "/"
  | None => false
  end.

Definition path_join (a b : string) : string :=
  if String.prefix "/" b then b
  else if String.eqb a "" || ends_with_slash a then a +:+ b
  else a +:+ "/" +:+ b.

(** ** Collaborators *)

Inductive method := GET | POST | DELETE.

(** Generated source text is kept as its template together with the values
    that fill it, in the order in which they appear. *)

(** [agent_code] of [save_tool_to_resources]: the wrapper module around the
    recorded code.  The template interpolates [tool_description],
    [session_id], the recorded code after [replace('def ', 'def _original_')]
    and [session_id] twice more. *)
Record agent_code := {
  ac_description : string;
  ac_session_id : string;
  ac_recorded_code : string;
}.

Record register_metadata := {
  rm_generated_from_recording : bool;
  rm_recording_session_id : string;
  rm_created_at : string;
  rm_type : string;
}.

(** [register_payload] of [save_tool_to_resources]. *)
Record register_payload := {
  rp_name : string;
  rp_description : string;
  rp_code : agent_code;
  rp_tools : list string;
  rp_metadata : register_metadata;
}.

Inductive body :=
| NoBody
| JsonBody (j : json)
| RegisterBody (p : register_payload).

Record request := {
  req_method : method;
  req_url : fstring;
  req_body : body;
  req_timeout : Z;
}.

(** What the code reads from a [requests.Response]: [status_code],
    [json()] (which raises when the body is not JSON), [text] and the
    content-type header. *)
Record response := {
  status_code : Z;
  json_body : option json;
  text : string;
  content_type : option string;
}.

Inductive outcome :=
| Responded (r : response)
| Unreachable (n : net_error).

(** [metadata] of [save_local_copy], written with [json.dump]. *)
Record tool_metadata := {
  md_name : string;
  md_description : string;
  md_file_name : string;
  md_generated_from_recording : bool;
  md_recording_session_id : string;
  md_created_at : string;
  md_type : string;
  md_registered_as_agent : bool;
}.

(** What a file holds: [enhanced_tool_code] of [save_local_copy]
    (docstring with description, session id and tool name, the recorded code,
    then the [TOOL_METADATA] block that repeats name, description and session
    id and adds the file name), the metadata document, or what a write that
    failed after [open] has left: at most the first [written] bytes of the
    text that was being written. *)
Inductive content :=
| EnhancedToolCode (tool_description session_id tool_name : string)
    (tool_code : json) (clean_name : string)
| MetadataJson (m : tool_metadata)
| Partial (written : nat) (c : content).

Inductive fs_op :=
| Makedirs (path : string)
| WriteFile (path : string) (c : content).

(** Calls into Streamlit that show something.  The data of the download
    button is [enhanced_code] of [generate_tool_code], a template filled with
    the description, the session id, the tool name and the recorded code. *)
Inductive ui_call :=
| st_success (m : fstring)
| st_error (m : fstring)
| st_info (m : fstring)
| st_warning (m : fstring)
| st_write (m : fstring)
| st_markdown (m : fstring)
| st_code (v : json)
| st_expander (label : string)
| st_balloons
| st_divider
| st_exception (e : exn)
| st_download_button (label : string) (tool_description session_id tool_name : string)
    (tool_code : json) (file_name : string).

(** The effects of a run, in the order in which they happened. *)
Inductive event :=
| Request (r : request)
| Fs (op : fs_op)
| Ui (u : ui_call).

Definition is_request (ev : event) : bool :=
  match ev with Request _ => true | _ => false end.

Definition is_fs (ev : event) : bool :=
  match ev with Fs _ => true | _ => false end.

(** The environment: the [k]-th HTTP request [r] of the client session gets
    [backend k r]; the [k]-th file-system operation fails with [OSError]
    when [disk_fails k op]; when that operation is a write,
    [written_before_failure k] tells how it failed: [None] when [open]
    itself was refused, [Some n] when the file was opened, which creates or
    truncates it, and [n] bytes reached it before the error; [clock k] is
    the [k]-th reading of [time.strftime]; [rng k] is the [k]-th random draw;
    [script_dir] is [os.path.dirname(__file__)]. *)
Record env := {
  backend : nat -> request -> outcome;
  disk_fails : nat -> fs_op -> bool;
  written_before_failure : nat -> option nat;
  clock : nat -> string;
  rng : nat -> nat;
  script_dir : string;
}.

(** The client-side world. *)
Record world := {
  session_state : gmap string json;
  files : gmap string content;
  dirs : gset string;
  trace : list event;
  clock_reads : nat;
  draws : nat;
}.

Fixpoint count_events (p : event -> bool) (t : list event) : nat :=
  match t with
  | [] => 0
  | ev :: t' => (if p ev then 1 else 0) + count_events p t'
  end.

Definition requests_made (w : world) : nat := count_events is_request (trace w).
Definition fs_ops_made (w : world) : nat := count_events is_fs (trace w).

Definition log (ev : event) (w : world) : world :=
  {| session_state := session_state w; files := files w; dirs := dirs w;
     trace := trace w ++ [ev];
     clock_reads := clock_reads w; draws := draws w |}.

Definition with_session_state (s : gmap string json) (w : world) : world :=
  {| session_state := s; files := files w; dirs := dirs w; trace := trace w;
     clock_reads := clock_reads w; draws := draws w |}.

Definition with_files (f : gmap string content) (w : world) : world :=
  {| session_state := session_state w; files := f; dirs := dirs w;
     trace := trace w; clock_reads := clock_reads w; draws := draws w |}.

Definition with_dirs (d : gset string) (w : world) : world :=
  {| session_state := session_state w; files := files w; dirs := d;
     trace := trace w; clock_reads := clock_reads w; draws := draws w |}.

Definition tick_clock (w : world) : world :=
  {| session_state := session_state w; files := files w; dirs := dirs w;
     trace := trace w; clock_reads := S (clock_reads w); draws := draws w |}.

(** ** The monad *)

Inductive result (A : Type) :=
| Ok (a : A)
| Raise (e : exn).
Arguments Ok {A} a.
Arguments Raise {A} e.

Definition M (A : Type) : Type := env -> world -> result A * world.

Definition M_ret {A} (a : A) : M A := fun _ w => (Ok a, w).

Definition M_bind {A B} (f : A -> M B) (m : M A) : M B :=
  fun e w =>
    match m e w with
    | (Ok a, w') => f a e w'
    | (Raise x, w') => (Raise x, w')
    end.

#[global] Instance M_mret : MRet M := @M_ret.
#[global] Instance M_mbind : MBind M := @M_bind.

Definition raise {A} (x : exn) : M A := fun _ w => (Raise x, w).

(** [try: m / except <classes>: h], for the classes selected by [catches]. *)
Definition try_catch {A} (catches : exn -> bool) (m : M A) (h : exn -> M A) : M A :=
  fun e w =>
    match m e w with
    | (Raise x, w') => if catches x then h x e w' else (Raise x, w')
    | r => r
    end.

(** [except Exception as e:] and the bare [except:]. *)
Definition try_except {A} (m : M A) (h : exn -> M A) : M A :=
  try_catch is_Exception m h.
Definition try_bare {A} (m : M A) (h : exn -> M A) : M A :=
  try_catch (fun _ => true) m h.

(** *** Primitive effects *)

Definition ui (u : ui_call) : M unit := fun _ w => (Ok tt, log (Ui u) w).

(** [key in st.session_state] *)
Definition state_contains (k : string) : M bool :=
  fun _ w =>
    (Ok (match session_state w !! k with Some _ => true | None => false end), w).

(** [st.session_state[key]] *)
Definition state_getitem (k : string) : M json :=
  fun _ w =>
    match session_state w !! k with
    | Some v => (Ok v, w)
    | None => (Raise (KeyError k), w)
    end.

(** [st.session_state[key] = v] *)
Definition state_set (k : string) (v : json) : M unit :=
  fun _ w => (Ok tt, with_session_state (<[k := v]> (session_state w)) w).

(** [del st.session_state[key]] *)
Definition state_del (k : string) : M unit :=
  fun _ w =>
    match session_state w !! k with
    | Some _ => (Ok tt, with_session_state (delete k (session_state w)) w)
    | None => (Raise (KeyError k), w)
    end.

(** [requests.get/post(...)]: the request is issued, then the answer is read
    or the transport error raised. *)
Definition send (r : request) : M response :=
  fun e w =>
    match backend e (requests_made w) r with
    | Responded resp => (Ok resp, log (Request r) w)
    | Unreachable n => (Raise (RequestsError n), log (Request r) w)
    end.

Definition requests_get (url : fstring) (timeout : Z) : M response :=
  send {| req_method := GET; req_url := url; req_body := NoBody; req_timeout := timeout |}.

Definition requests_post (url : fstring) (b : body) (timeout : Z) : M response :=
  send {| req_method := POST; req_url := url; req_body := b; req_timeout := timeout |}.

(** [response.json()] *)
Definition response_json (r : response) : M json :=
  match json_body r with
  | Some j => mret j
  | None => raise JSONDecodeError
  end.

(** [d.get(key, default)]: only dictionaries have the method. *)
Definition dict_get (v : json) (k : string) (default : json) : M json :=
  match v with
  | JObj d => mret (match assoc k d with Some x => x | None => default end)
  | _ => raise AttributeError
  end.

(** [d[key]] for a string key. *)
Definition getitem (v : json) (k : string) : M json :=
  match v with
  | JObj d => match assoc k d with Some x => mret x | None => raise (KeyError k) end
  | _ => raise TypeError
  end.

(** [time.strftime("%Y-%m-%d %H:%M:%S")] *)
Definition strftime : M string :=
  fun e w => (Ok (clock e (clock_reads w)), tick_clock w).

(** [os.makedirs(path, exist_ok=True)] *)
Definition makedirs (path : string) : M unit :=
  fun e w =>
    let w' := log (Fs (Makedirs path)) w in
    if disk_fails e (fs_ops_made w) (Makedirs path)
    then (Raise OSError, w')
    else (Ok tt, with_dirs ({[path]} ∪ dirs w') w').

(** [with open(path, 'w') as f: f.write(c)] (or [json.dump(c, f)]).  The
    file is created or truncated by [open], before anything is written, so
    a write that fails later leaves a partial file in the place of what was
    there. *)
Definition write_file (path : string) (c : content) : M unit :=
  fun e w =>
    let w' := log (Fs (WriteFile path c)) w in
    if disk_fails e (fs_ops_made w) (WriteFile path c)
    then
      match written_before_failure e (fs_ops_made w) with
      | None => (Raise OSError, w')
      | Some n => (Raise OSError, with_files (<[path := Partial n c]> (files w')) w')
      end
    else (Ok tt, with_files (<[path := c]> (files w')) w').

(** Number of code points of a UTF-8 string: the bytes that are not
    continuation bytes. *)
Fixpoint utf8_length (s : string) : nat :=
  match s with
  | EmptyString => 0
  | String c s' =>
      let n := nat_of_ascii c in
      (if (n <? 128)%nat || (192 <=? n)%nat then 1 else 0) + utf8_length s'
  end.

(** [s[:n]]: the first [n] code points of a UTF-8 string, each with its
    continuation bytes. *)
Fixpoint utf8_prefix (n : nat) (s : string) : string :=
  match s with
  | EmptyString => EmptyString
  | String c s' =>
      let b := nat_of_ascii c in
      if (b <? 128)%nat || (192 <=? b)%nat then
        match n with
        | O => EmptyString
        | S k => String c (utf8_prefix k s')
        end
      else String c (utf8_prefix n s')
  end.

(** [len(v)] *)
Definition py_len (v : json) : M nat :=
  match v with
  | JList l => mret (length l)
  | JObj d => mret (length d)
  | JStr s => mret (utf8_length s)
  | _ => raise TypeError
  end.

(** [x // 1000]; booleans are integers in Python. *)
Definition floordiv_1000 (v : json) : M json :=
  match v with
  | JNum z => mret (JNum (z / 1000))
  | JBool b => mret (JNum 0)
  | _ => raise TypeError
  end.

(** [s.replace(old, new)] on a value that may not be a string. *)
Definition py_replace (v : json) (old new : string) : M string :=
  match v with
  | JStr s => mret (replace old new s)
  | _ => raise AttributeError
  end.

(** [random.choices(population, k=k)] joined into a string: each draw picks
    the element at a uniformly distributed index below the length. *)
Fixpoint draw_chars (population : string) (r : nat -> nat) (from k : nat) : option string :=
  match k with
  | O => Some EmptyString
  | S k' =>
      match String.get (r from mod String.length population) population with
      | Some c =>
          match draw_chars population r (S from) k' with
          | Some s => Some (String c s)
          | None => None
          end
      | None => None
      end
  end.

Definition tick_draws (k : nat) (w : world) : world :=
  {| session_state := session_state w; files := files w; dirs := dirs w;
     trace := trace w; clock_reads := clock_reads w; draws := k + draws w |}.

Definition random_choices (population : string) (k : nat) : M string :=
  fun e w =>
    match draw_chars population (rng e) (draws w) k with
    | Some s => (Ok s, tick_draws k w)
    | None => (Raise IndexError, w)
    end.

(** [st.rerun()] *)
Definition st_rerun {A} : M A := raise RerunException.

(** [if key in st.session_state: del st.session_state[key]] *)
Definition del_if_present (k : string) : M unit :=
  present ← state_contains k;
  if (present : bool) then state_del k else mret tt.

(** [os.path.dirname(__file__)] *)
Definition dirname_file : M string := fun e w => (Ok (script_dir e), w).

(** ** Connection gate *)

Definition BACKEND_API_URL : string := "http://localhost:8100".

Record connection_status := {
  api_connected : json;
  websocket_ready : json;
  fully_connected : json;
  recording_ready : json;
  tool_execution_ready : json;
}.

Definition all_false : connection_status :=
  {| api_connected := JBool false; websocket_ready := JBool false;
     fully_connected := JBool false; recording_ready := JBool false;
     tool_execution_ready := JBool false |}.

Definition check_extension_connection : M connection_status :=
  try_bare
    (response ← requests_get [Lit (BACKEND_API_URL +:+ "/extension/status")] 2;
     '(api, ws) ←
       (if (status_code response =? 200)%Z then
          status_data ← response_json response;
          api ← dict_get status_data "connected" (JBool false);
          ws ← dict_get status_data "websocketReady" (JBool false);
          mret (api, ws)
        else mret (JBool false, JBool false));
     mret {| api_connected := api; websocket_ready := ws;
             fully_connected := api; recording_ready := api;
             tool_execution_ready := py_and api ws |})
    (fun _ => mret all_false).

(** ** Session lifecycle manager *)

Definition start_recording_with_extension (session_name description : string) : M unit :=
  try_except
    (response ←
       requests_post [Lit (BACKEND_API_URL +:+ "/recorder/start")]
         (JsonBody (JObj [("sessionName", JStr session_name);
                          ("description", JStr description)])) 10;
     if (status_code response =? 200)%Z then
       data ← response_json response;
       session_id ← getitem data "sessionId";
       state_set "recording_session_id" session_id;;
       state_set "recording_session_name" (JStr session_name);;
       message ← getitem data "message";
       ui (st_success [Lit "✅ "; Val message]);;
       ui (st_info [Lit "🎬 **Recording started!** Now perform actions in your connected browser tab. The extension will automatically capture:"]);;
       ui (st_markdown [Lit "
            - 🧭 **Navigation** (page changes, URL updates)
            - 🖱️ **Clicks** (buttons, links, form elements) 
            - ⌨️ **Typing** (form inputs, text fields)
            - 📋 **Form interactions** (dropdowns, checkboxes)
            - ⏸️ **Page waits** (loading, delays)
            "]);;
       ui (st_warning [Lit "⚠️ **Important**: Make sure your browser extension is connected and active before performing actions!"])
     else
       error_data ←
         (if match content_type response with
             | Some t => String.eqb t "application/json"
             | None => false
             end
          then response_json response
          else mret (JObj [("error", JStr (text response))]));
       err ← dict_get error_data "error" (JStr "Unknown error");
       ui (st_error [Lit "❌ Failed to start recording: "; Val err]))
    (fun e => ui (st_error [Lit "❌ Error starting recording: "; ExnStr e])).

(** [actions[-5:]] on a list. *)
Definition last_five {A} (l : list A) : list A := skipn (length l - 5) l.

(** The loop [for i, action in enumerate(..., 1): st.write(...)]. *)
Fixpoint write_actions (i : Z) (l : list json) : M unit :=
  match l with
  | [] => mret tt
  | action :: l' =>
      ty ← getitem action "type";
      description ← dict_get action "description" (JStr "No description");
      ui (st_write [Val (JNum i); Lit ". **"; Val ty; Lit "**: "; Val description]);;
      write_actions (i + 1) l'
  end.

(** The loop header applied to whatever [session.get("actions", [])] is.  It
    runs only when [len] of the value was positive: a non-empty string
    yields characters, on which [action['type']] is a [TypeError]; a
    dictionary cannot be sliced. *)
Definition write_recent_actions (actions : json) : M unit :=
  match actions with
  | JList l => write_actions 1 (last_five l)
  | _ => raise TypeError
  end.

Definition get_recording_status : M unit :=
  present ← state_contains "recording_session_id";
  if negb present then mret tt
  else
    try_except
      (session_id ← state_getitem "recording_session_id";
       response ←
         requests_get [Lit (BACKEND_API_URL +:+ "/recorder/sessions/"); Val session_id] 5;
       if (status_code response =? 200)%Z then
         session_data ← response_json response;
         session ← dict_get session_data "session" (JObj []);
         actions ← dict_get session "actions" (JList []);
         actions_count ← py_len actions;
         if (0 <? actions_count)%nat then
           ui (st_success [Lit "📊 Captured "; Val (JNum (Z.of_nat actions_count));
                           Lit " actions so far"]);;
           ui (st_expander "📋 Recent Actions");;
           actions ← dict_get session "actions" (JList []);
           write_recent_actions actions
         else
           ui (st_info [Lit "No actions captured yet - make sure your extension is connected and active"])
       else
         ui (st_warning [Lit "Could not fetch recording status: ";
                         Val (JNum (status_code response))]))
      (fun e => ui (st_error [Lit "Error getting recording status: "; ExnStr e])).

Definition stop_recording : M unit :=
  try_except
    (response ← requests_post [Lit (BACKEND_API_URL +:+ "/recorder/stop")] NoBody 10;
     if (status_code response =? 200)%Z then
       data ← response_json response;
       session ← getitem data "session";
       state_set "last_completed_session" session;;
       del_if_present "recording_session_id";;
       del_if_present "recording_session_name";;
       name ← getitem session "name";
       ui (st_success [Lit "✅ Recording stopped: "; Val name]);;
       actions_count ← getitem session "actionsCount";
       duration ← getitem session "duration";
       seconds ← floordiv_1000 duration;
       ui (st_info [Lit "Recorded "; Val actions_count; Lit " actions in ";
                    Val seconds; Lit " seconds"])
     else
       error_data ← response_json response;
       err ← dict_get error_data "error" (JStr "Unknown error");
       ui (st_error [Lit "Failed to stop recording: "; Val err]))
    (fun e => ui (st_error [Lit "Error stopping recording: "; ExnStr e])).

(** ** Tool persister *)

(** [string.ascii_lowercase + string.digits] *)
Definition suffix_alphabet : string := "abcdefghijklmnopqrstuvwxyz0123456789".

(** [os.path.join(os.path.dirname(__file__), '..', 'agent-resources', 'tools')] *)
Definition tools_directory : M string :=
  here ← dirname_file;
  mret (path_join (path_join (path_join here "..") "agent-resources") "tools").

Definition save_local_copy (tool_name tool_description : string) (tool_code : json)
    (session_id : string) : M bool :=
  try_except
    (random_suffix ← random_choices suffix_alphabet 8;
     let clean_name := "browser_tool_" +:+ random_suffix +:+ ".py" in
     let enhanced_tool_code :=
       EnhancedToolCode tool_description session_id tool_name tool_code clean_name in
     tools_dir ← tools_directory;
     makedirs tools_dir;;
     let tool_path := path_join tools_dir clean_name in
     write_file tool_path enhanced_tool_code;;
     created_at ← strftime;
     let metadata :=
       {| md_name := tool_name;
          md_description := tool_description;
          md_file_name := clean_name;
          md_generated_from_recording := true;
          md_recording_session_id := session_id;
          md_created_at := created_at;
          md_type := "browser_automation";
          md_registered_as_agent := true |} in
     let metadata_path :=
       path_join tools_dir (replace ".py" "_metadata.json" clean_name) in
     write_file metadata_path (MetadataJson metadata);;
     mret true)
    (fun _ => mret false).

(** The annotation [tool_code: str] is not enforced: [generate_tool_code]
    passes on whatever the backend sent as [toolCode], so the parameter is a
    Python value here. *)
Definition save_tool_to_resources (tool_name tool_description : string) (tool_code : json)
    (session_id : string) : M bool :=
  try_except
    (if String.eqb tool_name "" || negb (truthy tool_code) || String.eqb session_id ""
     then mret false
     else
       recorded ← py_replace tool_code "def " "def _original_";
       let agent_code :=
         {| ac_description := tool_description;
            ac_session_id := session_id;
            ac_recorded_code := recorded |} in
       created_at ← strftime;
       let register_payload :=
         {| rp_name := tool_name;
            rp_description :=
              tool_description +:+ " (Generated from recording " +:+ session_id +:+ ")";
            rp_code := agent_code;
            rp_tools := ["execute_" +:+ replace " " "_" (lower tool_name) +:+ "_workflow"];
            rp_metadata :=
              {| rm_generated_from_recording := true;
                 rm_recording_session_id := session_id;
                 rm_created_at := created_at;
                 rm_type := "browser_automation" |} |} in
       response ←
         requests_post [Lit (BACKEND_API_URL +:+ "/agents/register")]
           (RegisterBody register_payload) 30;
       if (status_code response =? 200)%Z then
         save_local_copy tool_name tool_description tool_code session_id;;
         mret true
       else
         save_local_copy tool_name tool_description tool_code session_id)
    (fun _ => save_local_copy tool_name tool_description tool_code session_id).

(** ** Tool generator *)

(** [try: ... except C1: ... except C2: ...]: the first clause whose class
    matches handles the exception. *)
Fixpoint handle {A} (clauses : list ((exn -> bool) * (exn -> M A))) (x : exn) : M A :=
  match clauses with
  | [] => raise x
  | (c, h) :: rest => if c x then h x else handle rest x
  end.

Definition try_clauses {A} (m : M A) (clauses : list ((exn -> bool) * (exn -> M A))) : M A :=
  fun e w =>
    match m e w with
    | (Raise x, w') => handle clauses x e w'
    | r => r
    end.

(** [not s.strip()]: the string consists of white space only.  The white
    space of [str.isspace] in UTF-8: one byte for U+0009 to U+000D, U+001C to
    U+001F and U+0020; two bytes for U+0085 and U+00A0; three bytes for
    U+1680, U+2000 to U+200A, U+2028, U+2029, U+202F, U+205F and U+3000. *)
Definition is_space (c : ascii) : bool :=
  let n := nat_of_ascii c in
  ((9 <=? n)%nat && (n <=? 13)%nat) || ((28 <=? n)%nat && (n <=? 32)%nat).

Definition is_space2 (c1 c2 : ascii) : bool :=
  let b := nat_of_ascii c2 in
  (nat_of_ascii c1 =? 194)%nat && ((b =? 133)%nat || (b =? 160)%nat).

Definition is_space3 (c1 c2 c3 : ascii) : bool :=
  let a := nat_of_ascii c1 in
  let b := nat_of_ascii c2 in
  let c := nat_of_ascii c3 in
  ((a =? 225)%nat && (b =? 154)%nat && (c =? 128)%nat)
  || ((a =? 226)%nat && (b =? 128)%nat
      && (((128 <=? c)%nat && (c <=? 138)%nat)
          || (c =? 168)%nat || (c =? 169)%nat || (c =? 175)%nat))
  || ((a =? 226)%nat && (b =? 129)%nat && (c =? 159)%nat)
  || ((a =? 227)%nat && (b =? 128)%nat && (c =? 128)%nat).

Fixpoint is_blank (s : string) : bool :=
  match s with
  | EmptyString => true
  | String c1 s1 =>
      if is_space c1 then is_blank s1
      else
        match s1 with
        | String c2 s2 =>
            if is_space2 c1 c2 then is_blank s2
            else
              match s2 with
              | String c3 s3 => is_space3 c1 c2 c3 && is_blank s3
              | EmptyString => false
              end
        | EmptyString => false
        end
  end.

(** What the front end hands to one run of [generate_tool_code]: the values
    of the two text inputs and whether each button was pressed. *)
Record generate_widgets := {
  tool_name_input : string;
  tool_description_input : string;
  save_button : bool;
  start_new_recording_button : bool;
  view_all_sessions_button : bool;
}.

Definition generation_key (session_id : string) : string :=
  "tool_generation_" +:+ session_id.

Definition generate_tool_url (session_id : string) : fstring :=
  [Lit (BACKEND_API_URL +:+ "/recorder/sessions/"); Val (JStr session_id);
   Lit "/generate-tool"].

(** The first [if] of [generate_tool_code].  The result tells whether the
    function has returned, and carries the local variable [response] when it
    was bound. *)
Definition request_generation (session_id : string) : M (bool * option response) :=
  present ← state_contains (generation_key session_id);
  if negb present then
    response ← requests_post (generate_tool_url session_id) NoBody 30;
    if (status_code response =? 200)%Z then
      data ← response_json response;
      tool_code ← getitem data "toolCode";
      state_set (generation_key session_id)
        (JObj [("tool_code", tool_code);
               ("generated", JBool true);
               ("tool_name", JStr ("browser_automation_" +:+ utf8_prefix 6 session_id));
               ("tool_description",
                JStr "Automated browser workflow generated from recorded session")]);;
      mret (false, Some response)
    else
      ui (st_error [Lit "Failed to generate tool: "; Val (JNum (status_code response))]);;
      mret (true, Some response)
  else mret (false, None).

(** The handler of the save button. *)
Definition on_save_button (tool_name tool_description : string) (tool_code : json)
    (session_id : string) : M unit :=
  ui st_balloons;;
  ui (st_write [Lit "🎉 BUTTON CLICKED - PROCESSING..."]);;
  if is_blank tool_name then ui (st_error [Lit "❌ Tool name is required!"])
  else
    save_success ← save_tool_to_resources tool_name tool_description tool_code session_id;
    if (save_success : bool) then
      ui (st_success [Lit "✅ Tool '"; Lit tool_name; Lit "' saved successfully!"]);;
      ui (st_info [Lit "💡 Check the Tools page → Local Tools tab to see your saved tool!"])
    else ui (st_error [Lit "❌ Failed to save tool."]).

(** The branch taken when the generation is in the session state. *)
Definition show_generated_tool (wd : generate_widgets) (session_id : string) : M unit :=
  tool_data ← state_getitem (generation_key session_id);
  tool_code ← getitem tool_data "tool_code";
  ui (st_success [Lit "✅ Tool code generated successfully!"]);;
  ui (st_markdown [Lit "#### ⚙️ Customize Your Tool"]);;
  let name_key := "tools_tab_tool_name_" +:+ session_id in
  present ← state_contains name_key;
  (if negb present
   then (default_name ← getitem tool_data "tool_name"; state_set name_key default_name)
   else mret tt);;
  state_getitem name_key;;
  let tool_name := tool_name_input wd in
  let desc_key := "tools_tab_tool_desc_" +:+ session_id in
  present ← state_contains desc_key;
  (if negb present
   then (default_desc ← getitem tool_data "tool_description"; state_set desc_key default_desc)
   else mret tt);;
  state_getitem desc_key;;
  let tool_description := tool_description_input wd in
  ui (st_markdown [Lit "**Actions:**"]);;
  ui (st_download_button "📥 Download Tool" tool_description session_id tool_name tool_code
        (replace " " "_" (lower tool_name) +:+ ".py"));;
  (if save_button wd
   then on_save_button tool_name tool_description tool_code session_id
   else mret tt);;
  ui (st_markdown [Lit "#### 🐍 Generated Python Tool"]);;
  ui (st_code tool_code);;
  ui (st_expander "📖 How to use this tool");;
  ui (st_markdown [Lit "
                **To use this generated tool:**
                
                1. **Save the code**: Download or copy the generated Python code
                2. **Add to agent resources**: Place the file in your `agent-resources/tools/` directory
                3. **Update agent**: Your AI agents can now use this tool automatically
                4. **Test the tool**: Run the function to make sure it works as expected
                
                **Example usage in agent:**
                ```python
                # The agent can now call this tool automatically
                result = execute_your_recorded_action()
                print(result)
                ```
                "]);;
  ui st_divider;;
  (if start_new_recording_button wd
   then (del_if_present "last_completed_session";;
         del_if_present "selected_session_for_tool";;
         st_rerun)
   else mret tt);;
  (if view_all_sessions_button wd
   then (del_if_present "last_completed_session";; st_rerun)
   else mret tt).

(** The [else] branch: no generation in the session state. *)
Definition show_generation_failure (response : option response) : M unit :=
  error_detail ←
    try_bare
      (match response with
       | None => raise NameError
       | Some r =>
           error_data ← response_json r;
           match error_data with
           | JObj d =>
               mret (match assoc "error" d with
                     | Some v => [Val v]
                     | None => [Lit "HTTP "; Val (JNum (status_code r))]
                     end)
           | _ => raise AttributeError
           end
       end)
      (fun _ =>
         match response with
         | None => raise NameError
         | Some r =>
             mret [Lit "HTTP "; Val (JNum (status_code r)); Lit " - ";
                   Lit (utf8_prefix 200 (text r))]
         end);
  ui (st_error (Lit "Failed to generate tool: " :: error_detail));;
  ui (st_expander "🔧 Debug Information");;
  match response with
  | None => raise NameError
  | Some r =>
      ui (st_write [Lit "Status Code: "; Val (JNum (status_code r))]);;
      ui (st_write [Lit "Response: "; Lit (utf8_prefix 500 (text r))])
  end.

Definition generate_tool_code (wd : generate_widgets) (session_id : string) : M unit :=
  try_clauses
    ('(returned, response) ← request_generation session_id;
     if (returned : bool) then mret tt
     else
       present ← state_contains (generation_key session_id);
       if (present : bool) then show_generated_tool wd session_id
       else show_generation_failure response)
    [(is_Timeout,
      fun _ => ui (st_error [Lit "Tool generation timed out. The session may be too large or the backend is overloaded. Please try again."]));
     (is_ConnectionError,
      fun _ => ui (st_error [Lit "Could not connect to backend. Please check that the MyMCP.me backend is running."]));
     (is_Exception,
      fun e =>
        ui (st_error [Lit "Error generating tool: "; ExnStr e]);;
        ui (st_expander "🔧 Debug Information");;
        ui (st_exception e))].

(** ** Recording controls *)

(** What the front end hands to the recording controls. *)
Record controls_widgets := {
  session_name_input : string;
  session_description_input : string;
  start_button : bool;
  stop_button : bool;
}.

(** The recording controls of [show_recorder_interface]: the connection
    check that opens Step 2 and the left column of Step 3 (name and
    description inputs, start and stop buttons).  [start_button] is what
    [st.button] returned.  Streamlit never reports a disabled button as
    pressed; the embedding does not use [start_button_disabled] for that, so
    the theorems rest on the checks of the handler alone. *)
Definition show_recorder_interface_controls (wd : controls_widgets) : M unit :=
  connection_status ← check_extension_connection;
  let is_fully_connected := fully_connected connection_status in
  ui (st_markdown [Lit "### 📹 Recording Controls"]);;
  (if negb (truthy (recording_ready connection_status)) then
     ui (st_warning [Lit "⚠️ **Extension must be connected before you can start recording.**"]);;
     ui (st_info [Lit "Please complete Step 2 above to establish the HTTP connection."])
   else mret tt);;
  let session_name := session_name_input wd in
  let session_description := session_description_input wd in
  let start_button_disabled :=
    negb (truthy (recording_ready connection_status)) || String.eqb session_name "" in
  (if start_button wd then
     if String.eqb session_name "" then ui (st_error [Lit "Please enter a session name"])
     else if negb (truthy is_fully_connected)
          then ui (st_error [Lit "Extension must be connected first"])
          else start_recording_with_extension session_name session_description
   else mret tt);;
  (if stop_button wd then stop_recording else mret tt).

(** ** Vocabulary of the statements *)

(** A request has failed when no response arrived or its status is not 200. *)
Definition request_failed (o : outcome) : bool :=
  match o with
  | Unreachable _ => true
  | Responded r => negb (status_code r =? 200)%Z
  end.

(** The requests, file-system operations and Streamlit calls of a log. *)
Definition requests_of (t : list event) : list request :=
  omap (fun ev => match ev with Request r => Some r | _ => None end) t.

Definition fs_ops_of (t : list event) : list fs_op :=
  omap (fun ev => match ev with Fs op => Some op | _ => None end) t.

Definition ui_calls_of (t : list event) : list ui_call :=
  omap (fun ev => match ev with Ui u => Some u | _ => None end) t.

(** The values shown with [st.code]. *)
Definition codes_shown (t : list event) : list json :=
  omap (fun ev => match ev with Ui (st_code v) => Some v | _ => None end) t.

Definition status_request : request :=
  {| req_method := GET;
     req_url := [Lit (BACKEND_API_URL +:+ "/extension/status")];
     req_body := NoBody;
     req_timeout := 2 |}.

Definition start_request (session_name description : string) : request :=
  {| req_method := POST;
     req_url := [Lit (BACKEND_API_URL +:+ "/recorder/start")];
     req_body := JsonBody (JObj [("sessionName", JStr session_name);
                                 ("description", JStr description)]);
     req_timeout := 10 |}.

Definition stop_request : request :=
  {| req_method := POST;
     req_url := [Lit (BACKEND_API_URL +:+ "/recorder/stop")];
     req_body := NoBody;
     req_timeout := 10 |}.

Definition poll_request (session_id : json) : request :=
  {| req_method := GET;
     req_url := [Lit (BACKEND_API_URL +:+ "/recorder/sessions/"); Val session_id];
     req_body := NoBody;
     req_timeout := 5 |}.

Definition generate_request (session_id : string) : request :=
  {| req_method := POST;
     req_url := generate_tool_url session_id;
     req_body := NoBody;
     req_timeout := 30 |}.

(** The registration request that [save_tool_to_resources] sends when the
    clock reads [created_at]. *)
Definition register_request (tool_name tool_description tool_code session_id created_at : string)
    : request :=
  {| req_method := POST;
     req_url := [Lit (BACKEND_API_URL +:+ "/agents/register")];
     req_body :=
       RegisterBody
         {| rp_name := tool_name;
            rp_description :=
              tool_description +:+ " (Generated from recording " +:+ session_id +:+ ")";
            rp_code :=
              {| ac_description := tool_description;
                 ac_session_id := session_id;
                 ac_recorded_code := replace "def " "def _original_" tool_code |};
            rp_tools := ["execute_" +:+ replace " " "_" (lower tool_name) +:+ "_workflow"];
            rp_metadata :=
              {| rm_generated_from_recording := true;
                 rm_recording_session_id := session_id;
                 rm_created_at := created_at;
                 rm_type := "browser_automation" |} |};
     req_timeout := 30 |}.

(** Requests to the session-create and to the generate-tool endpoints. *)
Definition is_start_request (ev : event) : bool :=
  match ev with
  | Request r =>
      match req_url r with
      | [Lit u] => String.eqb u (BACKEND_API_URL +:+ "/recorder/start")
      | _ => false
      end
  | _ => false
  end.

Definition is_generate_request (ev : event) : bool :=
  match ev with
  | Request r =>
      match req_url r with
      | [Lit u; Val _; Lit v] =>
          String.eqb u (BACKEND_API_URL +:+ "/recorder/sessions/")
          && String.eqb v "/generate-tool"
      | _ => false
      end
  | _ => false
  end.

(** The tools directory of an environment. *)
Definition tools_dir_of (e : env) : string :=
  path_join (path_join (path_join (script_dir e) "..") "agent-resources") "tools".

(** The disk is healthy when no operation on it fails. *)
Definition disk_healthy (e : env) : Prop :=
  forall k op, disk_fails e k op = false.

(** Lowercase letters and digits. *)
Definition is_lower_alnum (c : ascii) : bool :=
  let n := nat_of_ascii c in
  ((97 <=? n)%nat && (n <=? 122)%nat) || ((48 <=? n)%nat && (n <=? 57)%nat).

Definition not_dot (c : ascii) : bool := negb (Ascii.eqb c ".").

Fixpoint string_forall (p : ascii -> bool) (s : string) : bool :=
  match s with
  | EmptyString => true
  | String c s' => p c && string_forall p s'
  end.

(** What [save_local_copy] writes for the suffix [suffix] when the clock
    reads [created_at]. *)
Definition source_name (suffix : string) : string := "browser_tool_" +:+ suffix +:+ ".py".
Definition metadata_name (suffix : string) : string :=
  "browser_tool_" +:+ suffix +:+ "_metadata.json".

Definition source_file (tool_name tool_description : string) (tool_code : json)
    (session_id suffix : string) : content :=
  EnhancedToolCode tool_description session_id tool_name tool_code (source_name suffix).

Definition metadata_file (tool_name tool_description session_id suffix created_at : string)
    : content :=
  MetadataJson
    {| md_name := tool_name;
       md_description := tool_description;
       md_file_name := source_name suffix;
       md_generated_from_recording := true;
       md_recording_session_id := session_id;
       md_created_at := created_at;
       md_type := "browser_automation";
       md_registered_as_agent := true |}.

(** The world after a local save that drew [suffix] and met no failure:
    the directory exists, the two files are written, the clock was read
    once and eight random draws were made. *)
Definition after_local_save (e : env) (tool_name tool_description : string)
    (tool_code : json) (session_id suffix : string) (w : world) : world :=
  let dir := tools_dir_of e in
  let src := path_join dir (source_name suffix) in
  let meta := path_join dir (metadata_name suffix) in
  let source := source_file tool_name tool_description tool_code session_id suffix in
  let metadata :=
    metadata_file tool_name tool_description session_id suffix (clock e (clock_reads w)) in
  {| session_state := session_state w;
     files := <[meta := metadata]> (<[src := source]> (files w));
     dirs := {[dir]} ∪ dirs w;
     trace := trace w ++ [Fs (Makedirs dir); Fs (WriteFile src source);
                          Fs (WriteFile meta metadata)];
     clock_reads := S (clock_reads w);
     draws := 8 + draws w |}.

(** Events that neither show code nor ask the backend to generate a tool. *)
Definition quiet (ev : event) : bool :=
  match ev with
  | Ui (st_code _) => false
  | _ => negb (is_generate_request ev)
  end.

(** A step that leaves the session state alone and logs quiet events only. *)
Definition quiet_step (w w' : world) : Prop :=
  session_state w' = session_state w /\
  exists evs : list event,
    trace w' = (trace w ++ evs)%list /\ Forall (fun ev => quiet ev = true) evs.

(** The line that [get_recording_status] writes for the [i]-th recent
    action. *)
Definition shows_action (i : Z) (action : json) (u : ui_call) : Prop :=
  exists d ty,
    action = JObj d /\ assoc "type" d = Some ty /\
    u = st_write [Val (JNum i); Lit ". **"; Val ty; Lit "**: ";
                  Val (match assoc "description" d with
                       | Some x => x
                       | None => JStr "No description"
                       end)].

(** An action record carries its type. *)
Definition has_type (action : json) : Prop :=
  exists d ty, action = JObj d /\ assoc "type" d = Some ty.

(** The world after the events [evs] have been logged. *)
Definition log_all (evs : list event) (w : world) : world :=
  {| session_state := session_state w; files := files w; dirs := dirs w;
     trace := trace w ++ evs;
     clock_reads := clock_reads w; draws := draws w |}.

(** ** Further functions of [recorder.py] *)

(** [requests.delete(...)] *)
Definition requests_delete (url : fstring) (timeout : Z) : M response :=
  send {| req_method := DELETE; req_url := url; req_body := NoBody; req_timeout := timeout |}.

(** The caller hands over [session['id']] as the backend sent it. *)
Definition delete_session (session_id : json) : M unit :=
  try_except
    (response ←
       requests_delete [Lit (BACKEND_API_URL +:+ "/recorder/sessions/"); Val session_id] 10;
     if (status_code response =? 200)%Z then
       ui (st_success [Lit "Session deleted successfully"]);;
       st_rerun
     else ui (st_error [Lit "Failed to delete session"]))
    (fun e => ui (st_error [Lit "Error deleting session: "; ExnStr e])).

(** [d[k] = v] on a dictionary kept as an association list with distinct
    keys: an existing key keeps its place. *)
Fixpoint dict_set (k : string) (v : json) (d : list (string * json)) : list (string * json) :=
  match d with
  | [] => [(k, v)]
  | (k', v') :: d' =>
      if String.eqb k k' then (k, v) :: d' else (k', v') :: dict_set k v d'
  end.

(** [{**base, **extra}] *)
Definition dict_update (base extra : list (string * json)) : list (string * json) :=
  fold_left (fun acc kv => dict_set (fst kv) (snd kv) acc) extra base.

Definition add_manual_action (action_type : string) (action_data : list (string * json))
    : M unit :=
  present ← state_contains "recording_session_id";
  if negb present then ui (st_error [Lit "No active recording session"])
  else
    try_except
      (response ←
         requests_post [Lit (BACKEND_API_URL +:+ "/recorder/action")]
           (JsonBody (JObj (dict_update [("type", JStr action_type)] action_data))) 10;
       if (status_code response =? 200)%Z then
         ui (st_success [Lit "✅ Added "; Lit action_type; Lit " action: ";
                         Val (match assoc "description" action_data with
                              | Some x => x
                              | None => JStr "Unknown action"
                              end)]);;
         st_rerun
       else
         error_data ← response_json response;
         err ← dict_get error_data "error" (JStr "Unknown error");
         ui (st_error [Lit "Failed to add action: "; Val err]))
      (fun e => ui (st_error [Lit "Error adding action: "; ExnStr e])).

(** [v == s] for a string [s]: values of other types are different. *)
Definition py_eq_str (v : json) (s : string) : bool :=
  match v with
  | JStr x => String.eqb x s
  | _ => false
  end.

(** [v > 0]; booleans are integers, the other types do not compare with
    an integer. *)
Definition py_gt_zero (v : json) : M bool :=
  match v with
  | JNum z => mret (0 <? z)%Z
  | JBool b => mret b
  | _ => raise TypeError
  end.

(** [s['status'] == 'stopped' and s['actionsCount'] > 0] *)
Definition is_completed_with_actions (s : json) : M bool :=
  status ← getitem s "status";
  if py_eq_str status "stopped" then
    actions_count ← getitem s "actionsCount";
    py_gt_zero actions_count
  else mret false.

(** The list comprehension [[s for s in l if p(s)]]. *)
Fixpoint comprehension (p : json -> M bool) (l : list json) : M (list json) :=
  match l with
  | [] => mret []
  | s :: l' =>
      keep ← p s;
      rest ← comprehension p l';
      mret (if (keep : bool) then s :: rest else rest)
  end.

(** The elements a [for] over a value visits.  The value is truthy when
    the loop is reached, so a string or a dictionary yields a first element
    that is a string, on which [s['status']] is the [TypeError] raised
    here; numbers and booleans cannot be iterated. *)
Definition iterate_sessions (v : json) : M (list json) :=
  match v with
  | JList l => mret l
  | _ => raise TypeError
  end.

Definition auto_detect_recent_session : M unit :=
  try_except
    (sessions_response ←
       requests_get [Lit (BACKEND_API_URL +:+ "/recorder/sessions")] 3;
     if (status_code sessions_response =? 200)%Z then
       sessions_data ← response_json sessions_response;
       success ← dict_get sessions_data "success" JNull;
       listed ←
         (if truthy success then
            sessions ← dict_get sessions_data "sessions" JNull;
            mret (truthy sessions)
          else mret false);
       if (listed : bool) then
         sessions ← getitem sessions_data "sessions";
         elements ← iterate_sessions sessions;
         completed_sessions ← comprehension is_completed_with_actions elements;
         match completed_sessions with
         | most_recent :: _ =>
             present ← state_contains "last_completed_session";
             if negb present then
               state_set "last_completed_session" most_recent;;
               name ← getitem most_recent "name";
               actions_count ← getitem most_recent "actionsCount";
               ui (st_info [Lit "🎯 Found recent recording: **"; Val name; Lit "** (";
                            Val actions_count; Lit " actions)"])
             else mret tt
         | [] => mret tt
         end
       else mret tt
     else mret tt)
    (fun _ => mret tt).

(** [recorder_tab] runs three tab functions after the health check; they
    are parameters here. *)
Section RecorderTab.
Variables show_recorder_interface show_sessions_interface show_tools_interface : M unit.

Definition recorder_tab : M unit :=
  auto_detect_recent_session;;
  ui (st_markdown [Lit "# 🎬 Browser Action Recorder"]);;
  ui (st_markdown [Lit "
    Record your browser interactions and automatically generate tools for your AI agents!
    
    **🔄 Dual-Purpose Extension:**
    - **🎬 Recording Mode**: Capture your browser actions to create new automation tools
    - **⚡ Playback Mode**: Execute generated tools and browser automation commands
    
    **Complete Workflow:**
    1. **📦 Install Extension**: Download and install the browser extension  
    2. **🔗 Connect Extension**: Establish both HTTP and WebSocket connections
    3. **🎬 Record Actions**: Capture your browser interactions in real-time
    4. **🛠️ Generate Tools**: Convert recordings into reusable MCP tools
    5. **⚡ Use Tools**: Execute tools via AI agents or direct API calls
    "]);;
  ui (st_expander "🏗️ Extension Architecture");;
  ui (st_markdown [Lit "
        **Extension Connections:**
        - **HTTP Connection**: For recording session management and status updates
        - **WebSocket Connection**: For real-time browser automation and tool execution
        
        **Why Both Connections?**
        - **Recording**: HTTP handles session management, WebSocket captures browser events
        - **Playback**: WebSocket enables real-time tool execution in browser tabs
        
        **Ready When**: Both connections show green ✅ status
        "]);;
  api_available ←
    try_bare
      (response ← requests_get [Lit (BACKEND_API_URL +:+ "/health")] 5;
       mret (status_code response =? 200)%Z)
      (fun _ => mret false);
  if negb api_available then
    ui (st_error [Lit "🚨 Backend API is not available. Please start the backend server first."]);;
    ui (st_code (JStr "npm start"))
  else
    show_recorder_interface;;
    show_sessions_interface;;
    show_tools_interface.
End RecorderTab.

(** [sub in s] *)
Fixpoint contains (sub s : string) : bool :=
  String.prefix sub s
  || match s with
     | EmptyString => false
     | String _ s' => contains sub s'
     end.

(** The first loop of [show_tools_interface], over the keys of
    [st.session_state] in the order in which the dictionary yields them. *)
Fixpoint find_active_generation (keys : list string) : option string :=
  match keys with
  | [] => None
  | key :: rest =>
      if String.prefix "tool_generation_" key
      then Some (replace "tool_generation_" "" key)
      else find_active_generation rest
  end.

(** [list(st.session_state.keys())]: the keys, in an order that the map
    does not record; [delete_matching] does not depend on it. *)
Definition state_keys : M (list string) :=
  fun _ w => (Ok (map fst (map_to_list (session_state w))), w).

(** [for key in keys: if active_generation in key: del st.session_state[key]] *)
Fixpoint delete_matching (active_generation : string) (keys : list string) : M unit :=
  match keys with
  | [] => mret tt
  | key :: rest =>
      (if contains active_generation key then state_del key else mret tt);;
      delete_matching active_generation rest
  end.

(** The branch of [show_tools_interface] taken when a generation is
    active: the tool is shown again and the button "Generate Different
    Tool" clears every entry whose key contains the session id. *)
Definition show_active_generation (active_generation : string) (wd : generate_widgets)
    (generate_different_tool_button : bool) : M unit :=
  generate_tool_code wd active_generation;;
  if generate_different_tool_button then
    keys ← state_keys;
    delete_matching active_generation keys;;
    st_rerun
  else mret tt.

(** [start_recording]: the legacy name. *)
Definition start_recording (session_name description : string) : M unit :=
  start_recording_with_extension session_name description.

(** ** Vocabulary of the further properties *)

Definition sessions_request : request :=
  {| req_method := GET;
     req_url := [Lit (BACKEND_API_URL +:+ "/recorder/sessions")];
     req_body := NoBody;
     req_timeout := 3 |}.

Definition health_request : request :=
  {| req_method := GET;
     req_url := [Lit (BACKEND_API_URL +:+ "/health")];
     req_body := NoBody;
     req_timeout := 5 |}.

Definition delete_request (session_id : json) : request :=
  {| req_method := DELETE;
     req_url := [Lit (BACKEND_API_URL +:+ "/recorder/sessions/"); Val session_id];
     req_body := NoBody;
     req_timeout := 10 |}.

Definition action_request (action_type : string) (action_data : list (string * json))
    : request :=
  {| req_method := POST;
     req_url := [Lit (BACKEND_API_URL +:+ "/recorder/action")];
     req_body := JsonBody (JObj (dict_update [("type", JStr action_type)] action_data));
     req_timeout := 10 |}.

(** A session record as [auto_detect_recent_session] reads it: a dictionary
    with a status and an integral action count. *)
Definition listed_session (s : json) : Prop :=
  exists d status n,
    s = JObj d /\ assoc "status" d = Some status /\ assoc "actionsCount" d = Some (JNum n).

(** The condition of the comprehension on such a record. *)
Definition stopped_with_actions (s : json) : bool :=
  match s with
  | JObj d =>
      match assoc "status" d, assoc "actionsCount" d with
      | Some status, Some (JNum n) => py_eq_str status "stopped" && (0 <? n)%Z
      | _, _ => false
      end
  | _ => false
  end.

(** The session state after [delete_matching] has gone through [keys]. *)
Definition clear_state (active_generation : string) (keys : list string)
    (s : gmap string json) : gmap string json :=
  fold_left (fun m key => if contains active_generation key then delete key m else m) keys s.

(** ** Sample collaborators *)

(** A fresh client session. *)
Definition fresh_world : world :=
  {| session_state := ∅; files := ∅; dirs := ∅; trace := [];
     clock_reads := 0; draws := 0 |}.

(** A client session that is recording. *)
Definition recording_world : world :=
  {| session_state :=
       <["recording_session_id" := JStr "s-42"]>
         (<["recording_session_name" := JStr "Login Flow"]> ∅);
     files := ∅; dirs := ∅; trace := [];
     clock_reads := 0; draws := 0 |}.

(** An environment with a healthy disk whose backend always gives the
    outcome [o]. *)
Definition sample_env (o : outcome) : env :=
  {| backend := fun _ _ => o;
     disk_fails := fun _ _ => false;
     written_before_failure := fun _ => None;
     clock := fun _ => "2025-01-01 00:00:00";
     rng := fun k => 7 * k + 3;
     script_dir := "/app/pages" |}.

Definition ok_response (j : json) : outcome :=
  Responded {| status_code := 200; json_body := Some j;
               text := "ok"; content_type := Some "application/json" |}.

Definition error_response : outcome :=
  Responded {| status_code := 500; json_body := None;
               text := "Internal Server Error"; content_type := Some "text/plain" |}.

Definition sample_action (ty description : string) : json :=
  JObj [("type", JStr ty); ("description", JStr description)].

Definition sample_session : json :=
  JObj [("id", JStr "s-42"); ("name", JStr "Login Flow"); ("status", JStr "stopped");
        ("actionsCount", JNum 3); ("duration", JNum 4200);
        ("actions", JList [sample_action "navigate" "Navigate to https://example.com";
                           sample_action "click" "Click on Login";
                           sample_action "type" "Type into Email"])].

Definition sample_code : string := "def execute_recorded_action(): return 1".

Definition sample_widgets (save : bool) : generate_widgets :=
  {| tool_name_input := "login-tool";
     tool_description_input := "Logs into example.com";
     save_button := save;
     start_new_recording_button := false;
     view_all_sessions_button := false |}.

(** The end-to-end scenario: the extension is connected over HTTP only, a
    session is started, polled after three actions, stopped, turned into a
    tool and saved. *)
Definition scenario_backend (k : nat) (_ : request) : outcome :=
  match k with
  | 0 => ok_response (JObj [("connected", JBool true); ("websocketReady", JBool false)])
  | 1 => ok_response (JObj [("sessionId", JStr "s-42"); ("message", JStr "Recording started")])
  | 2 => ok_response (JObj [("session", sample_session)])
  | 3 => ok_response (JObj [("session", sample_session)])
  | 4 => ok_response (JObj [("toolCode", JStr sample_code)])
  | _ => ok_response JNull
  end.

Definition scenario_env : env :=
  {| backend := scenario_backend;
     disk_fails := fun _ _ => false;
     written_before_failure := fun _ => None;
     clock := fun _ => "2025-01-01 00:00:00";
     rng := fun k => 7 * k + 3;
     script_dir := "/app/pages" |}.

Definition scenario : M unit :=
  show_recorder_interface_controls
    {| session_name_input := "Login Flow"; session_description_input := "";
       start_button := true; stop_button := false |};;
  get_recording_status;;
  stop_recording;;
  generate_tool_code (sample_widgets true) "s-42".

(** * Theorems *)

(** ** The embedding at concrete inputs *)

Example replace_extension :
  replace ".py" "_metadata.json" "browser_tool_ab12cd34.py"
  = "browser_tool_ab12cd34_metadata.json".
Proof. reflexivity. Qed.

Example replace_does_not_overlap : replace "aa" "b" "aaaaa" = "bba".
Proof. reflexivity. Qed.

Example replace_def :
  replace "def " "def _original_" "def f(): undef g()"
  = "def _original_f(): undef _original_g()".
Proof. reflexivity. Qed.

Example workflow_tool_name : replace " " "_" (lower "Login Tool 2") = "login_tool_2".
Proof. reflexivity. Qed.

(** A no-break space (U+00A0) followed by a space is blank; a zero-width
    space (U+200B) is not white space. *)
Example blank_no_break_space :
  is_blank (String (ascii_of_nat 194) (String (ascii_of_nat 160) " ")) = true.
Proof. reflexivity. Qed.

Example zero_width_space_not_blank :
  is_blank (String (ascii_of_nat 226) (String (ascii_of_nat 128) (String (ascii_of_nat 139) "")))
  = false.
Proof. reflexivity. Qed.

Example slice_by_code_points : utf8_prefix 3 "écoles" = "éco".
Proof. reflexivity. Qed.

Example path_join_examples :
  path_join "/a" "b" = "/a/b" /\ path_join "/a/" "b" = "/a/b" /\
  path_join "" "b" = "b" /\ path_join "/a" "/b" = "/b".
Proof. repeat split. Qed.

Example tools_dir_of_sample :
  tools_dir_of scenario_env = "/app/pages/../agent-resources/tools".
Proof. reflexivity. Qed.

Example last_five_of_seven : last_five [1; 2; 3; 4; 5; 6; 7] = [3; 4; 5; 6; 7].
Proof. reflexivity. Qed.

Example last_five_of_two : last_five [1; 2] = [1; 2].
Proof. reflexivity. Qed.

Example sample_suffix :
  fst (random_choices suffix_alphabet 8 scenario_env fresh_world) = Ok "dkry5cjq".
Proof. reflexivity. Qed.

(** Connected over HTTP only: ready for recording, not for tool execution. *)
Example http_only_status :
  fst (check_extension_connection scenario_env fresh_world)
  = Ok {| api_connected := JBool true; websocket_ready := JBool false;
          fully_connected := JBool true; recording_ready := JBool true;
          tool_execution_ready := JBool false |}.
Proof. reflexivity. Qed.

(** The scenario ends normally; it has sent one request per step, the
    session is no longer active, its generation is cached and the two files
    of the tool are on disk. *)
Example scenario_runs :
  let '(r, w) := scenario scenario_env fresh_world in
  r = Ok tt /\
  map req_url (requests_of (trace w))
  = [ [Lit "http://localhost:8100/extension/status"];
      [Lit "http://localhost:8100/recorder/start"];
      [Lit "http://localhost:8100/recorder/sessions/"; Val (JStr "s-42")];
      [Lit "http://localhost:8100/recorder/stop"];
      [Lit "http://localhost:8100/recorder/sessions/"; Val (JStr "s-42");
       Lit "/generate-tool"];
      [Lit "http://localhost:8100/agents/register"] ] /\
  session_state w !! "recording_session_id" = None /\
  session_state w !! "last_completed_session" = Some sample_session /\
  codes_shown (trace w) = [JStr sample_code] /\
  map fst (map_to_list (files w))
  = ["/app/pages/../agent-resources/tools/browser_tool_dkry5cjq_metadata.json";
     "/app/pages/../agent-resources/tools/browser_tool_dkry5cjq.py"].
Proof. vm_compute. repeat split. Qed.

(** Without a connection the start button sends nothing but the status
    request. *)
Example start_without_connection :
  map req_url
    (requests_of
       (trace (snd (show_recorder_interface_controls
                      {| session_name_input := "Login Flow";
                         session_description_input := "";
                         start_button := true; stop_button := false |}
                      (sample_env (Unreachable NetConnectionError)) fresh_world))))
  = [ [Lit "http://localhost:8100/extension/status"] ].
Proof. reflexivity. Qed.

(** ** Running computations *)

(** Unfold the monad, the primitive effects and the record updates, leaving
    strings and maps alone. *)
Ltac run :=
  cbv beta iota zeta delta
    [try_bare try_except try_catch try_clauses handle mbind mret
     M_mbind M_mret M_bind M_ret raise
     ui state_contains state_getitem state_set state_del
     send requests_get requests_post response_json dict_get getitem
     strftime makedirs write_file py_len floordiv_1000 py_replace
     st_rerun dirname_file tools_directory
     is_Exception is_Timeout is_ConnectionError
     log log_all with_session_state with_files with_dirs tick_clock tick_draws
     requests_made fs_ops_made
     session_state files dirs trace clock_reads draws fst snd].

(** The same for a hypothesis about a world given as a record. *)
Ltac run_in H :=
  cbv beta iota zeta delta
    [log log_all with_session_state with_files with_dirs tick_clock tick_draws
     requests_made fs_ops_made
     session_state files dirs trace clock_reads draws fst snd] in H.

(** Case analysis on a [match] whose scrutinee contains no other [match]. *)
Ltac split_match :=
  match goal with
  | |- context [match ?x with _ => _ end] =>
      lazymatch x with
      | context [match _ with _ => _ end] => fail
      | _ => destruct x eqn:?
      end
  end.

Ltac exec := run; repeat (split_match; run).

Lemma del_if_present_run (k : string) (e : env) (w : world) :
  del_if_present k e w = (Ok tt, with_session_state (delete k (session_state w)) w).
Proof.
  destruct w as [ss fl ds tr cr dr]. unfold del_if_present. run.
  destruct (ss !! k) eqn:Hk; run; rewrite ?Hk; [reflexivity|].
  now rewrite delete_id.
Qed.

Lemma count_events_app (p : event -> bool) (t1 t2 : list event) :
  count_events p (t1 ++ t2) = count_events p t1 + count_events p t2.
Proof. induction t1 as [|ev t1 IH]; simpl; [reflexivity|]. rewrite IH. lia. Qed.

(** C5. The connection check never raises: it always returns a status and
    leaves the session state and the files alone; when the status request
    fails (no response, or a status other than 200) the status returned is
    the all-false one. *)
Theorem check_extension_connection_never_raises (e : env) (w : world) :
  exists status w',
    check_extension_connection e w = (Ok status, w') /\
    session_state w' = session_state w /\
    files w' = files w /\
    (request_failed (backend e (requests_made w) status_request) = true ->
     status = all_false).
Proof.
  unfold check_extension_connection, status_request.
  exec; do 2 eexists; (split; [reflexivity|]); repeat split; simpl;
    try congruence;
    match goal with H : (_ =? _)%Z = true |- _ => rewrite H end; discriminate.
Qed.

(** C10. Without an active-session id in the session state, polling
    returns at once: no request, nothing shown, the world is unchanged. *)
Theorem get_recording_status_idle (e : env) (w : world) :
  session_state w !! "recording_session_id" = None ->
  get_recording_status e w = (Ok tt, w).
Proof.
  intros Hidle. destruct w as [ss fl ds tr cr dr]. run_in Hidle.
  unfold get_recording_status. run. now rewrite Hidle.
Qed.

(** C8. With an empty tool name, empty tool code or empty session id,
    saving returns false at once: no request, no file-system operation, the
    world is unchanged. *)
Theorem save_tool_to_resources_rejects_empty
    (e : env) (w : world) (tool_name tool_description tool_code session_id : string) :
  tool_name = "" \/ tool_code = "" \/ session_id = "" ->
  save_tool_to_resources tool_name tool_description (JStr tool_code) session_id e w
  = (Ok false, w).
Proof.
  intros Hempty. unfold save_tool_to_resources. run.
  assert (String.eqb tool_name "" || negb (truthy (JStr tool_code))
          || String.eqb session_id "" = true) as Hguard.
  { destruct Hempty as [Hn|[Hc|Hs]]; subst; simpl.
    - reflexivity.
    - now rewrite orb_true_r.
    - now rewrite orb_true_r. }
  now rewrite Hguard.
Qed.

(** C6. When the backend answers the stop request with status 200 and a
    body that carries a session, stopping ends normally, the active-session
    identifiers are no longer in the session state and the returned session
    is stored as the last completed one; the other entries are untouched. *)
Theorem stop_recording_success
    (e : env) (w : world) (r : response) (d : list (string * json)) (session : json) :
  backend e (requests_made w) stop_request = Responded r ->
  status_code r = 200%Z ->
  json_body r = Some (JObj d) ->
  assoc "session" d = Some session ->
  exists w',
    stop_recording e w = (Ok tt, w') /\
    session_state w' =
      delete "recording_session_name"
        (delete "recording_session_id"
           (<["last_completed_session" := session]> (session_state w))) /\
    session_state w' !! "recording_session_id" = None /\
    session_state w' !! "recording_session_name" = None /\
    session_state w' !! "last_completed_session" = Some session.
Proof.
  intros Hresp Hstatus Hbody Hsession.
  assert (exists w', stop_recording e w = (Ok tt, w') /\
            session_state w' =
              delete "recording_session_name"
                (delete "recording_session_id"
                   (<["last_completed_session" := session]> (session_state w))))
    as (w' & Hrun & Hstate).
  { destruct w as [ss fl ds tr cr dr].
    unfold stop_recording, stop_request in *. run. run_in Hresp.
    rewrite Hresp. run. rewrite Hstatus. change (200 =? 200)%Z with true. run.
    rewrite Hbody. run. rewrite Hsession. run.
    rewrite !del_if_present_run.
    exec; eexists; split; reflexivity. }
  exists w'. split; [exact Hrun|]. split; [exact Hstate|].
  rewrite Hstate. repeat split.
  - rewrite lookup_delete_ne by discriminate. apply lookup_delete_eq.
  - apply lookup_delete_eq.
  - rewrite !lookup_delete_ne by discriminate. apply lookup_insert_eq.
Qed.

(** C7. A start or a stop whose request fails (no response, or a status
    other than 200) ends normally and changes nothing but the log, to which
    it adds the request and one error message: the session state, and with
    it the active-session identifiers and the last completed session, is the
    one before the call. *)
Theorem failed_start_or_stop_keeps_state (e : env) (w : world) :
  (forall session_name description,
      request_failed (backend e (requests_made w) (start_request session_name description))
      = true ->
      exists msg w',
        start_recording_with_extension session_name description e w = (Ok tt, w') /\
        w' = log (Ui (st_error msg)) (log (Request (start_request session_name description)) w) /\
        session_state w' = session_state w) /\
  (request_failed (backend e (requests_made w) stop_request) = true ->
   exists msg w',
     stop_recording e w = (Ok tt, w') /\
     w' = log (Ui (st_error msg)) (log (Request stop_request) w) /\
     session_state w' = session_state w).
Proof.
  split.
  - intros session_name description Hfailed.
    unfold start_recording_with_extension, start_request, request_failed in *.
    destruct w as [ss fl ds tr cr dr]. run.
    destruct (backend e _ _) as [r|n]; run.
    + destruct (status_code r =? 200)%Z; [discriminate|].
      exec; do 2 eexists; repeat split; reflexivity.
    + do 2 eexists; repeat split; reflexivity.
  - intros Hfailed.
    unfold stop_recording, stop_request, request_failed in *.
    destruct w as [ss fl ds tr cr dr]. run.
    destruct (backend e _ _) as [r|n]; run.
    + destruct (status_code r =? 200)%Z; [discriminate|].
      exec; do 2 eexists; repeat split; reflexivity.
    + do 2 eexists; repeat split; reflexivity.
Qed.

(** *** Requests of the lifecycle functions *)

Lemma check_extension_connection_run (e : env) (w : world) :
  exists status,
    check_extension_connection e w = (Ok status, log (Request status_request) w) /\
    fully_connected status = recording_ready status.
Proof.
  unfold check_extension_connection, status_request.
  destruct w as [ss fl ds tr cr dr].
  exec; eexists; split; reflexivity.
Qed.

Ltac count_start := rewrite ?count_events_app; simpl; lia.

Lemma start_recording_sends_one (e : env) (w : world) (session_name description : string) :
  exists r w',
    start_recording_with_extension session_name description e w = (r, w') /\
    count_events is_start_request (trace w')
    = count_events is_start_request (trace w) + 1.
Proof.
  unfold start_recording_with_extension.
  destruct w as [ss fl ds tr cr dr].
  exec; do 2 eexists; (split; [reflexivity|]); run; count_start.
Qed.

Lemma stop_recording_sends_no_start (e : env) (w : world) :
  exists r w',
    stop_recording e w = (r, w') /\
    count_events is_start_request (trace w') = count_events is_start_request (trace w).
Proof.
  unfold stop_recording.
  destruct w as [ss fl ds tr cr dr]. unfold del_if_present.
  exec; do 2 eexists; (split; [reflexivity|]); run; count_start.
Qed.

(** C4. One run of the recording controls sends a session-create request
    exactly when the start button is pressed, the session name is not empty
    and the connection status obtained in that run is ready for recording;
    in every other case (empty name, whatever the connection; or not ready,
    whatever the name) it sends none. *)
Theorem start_request_gated (e : env) (w : world) (wd : controls_widgets) :
  exists status w1,
    check_extension_connection e w = (Ok status, w1) /\
    exists r w',
      show_recorder_interface_controls wd e w = (r, w') /\
      count_events is_start_request (trace w')
      = count_events is_start_request (trace w)
        + (if start_button wd
              && negb (String.eqb (session_name_input wd) "")
              && truthy (recording_ready status)
           then 1 else 0).
Proof.
  destruct (check_extension_connection_run e w) as (status & Hcheck & Hfully).
  exists status, (log (Request status_request) w).
  split; [exact Hcheck|].
  unfold show_recorder_interface_controls. run. rewrite Hcheck. run.
  rewrite Hfully.
  destruct w as [ss fl ds tr cr dr].
  destruct wd as [name description start stop]. simpl.
  destruct (truthy (recording_ready status)), start, (String.eqb name ""), stop;
    cbv beta iota delta [negb]; run;
    repeat
      (match goal with
       | |- context [start_recording_with_extension ?n ?d ?e ?w] =>
           destruct (start_recording_sends_one e w n d) as (r1 & w1 & Hrun1 & Hcount1);
           rewrite Hrun1; destruct r1, w1
       | |- context [stop_recording ?e ?w] =>
           destruct (stop_recording_sends_no_start e w) as (r2 & w2 & Hrun2 & Hcount2);
           rewrite Hrun2; destruct r2, w2
       end; run);
    do 2 eexists; (split; [reflexivity|]);
    simpl in *; rewrite ?count_events_app in *; simpl in *; lia.
Qed.

(** *** Polling *)

Lemma write_actions_run (l : list json) :
  Forall has_type l ->
  forall (i : Z) (e : env) (w : world),
  exists lines,
    write_actions i l e w = (Ok tt, log_all (map Ui lines) w) /\
    length lines = length l /\
    forall k a, l !! k = Some a ->
      exists u, lines !! k = Some u /\ shows_action (i + Z.of_nat k) a u.
Proof.
  induction 1 as [|a l (d & ty & -> & Hty) _ IH]; intros i e w.
  - exists []. destruct w. repeat split.
    + simpl. run. unfold log_all. simpl. now rewrite app_nil_r.
    + intros k a Hk. discriminate.
  - simpl. run. rewrite Hty. run.
    match goal with
    | |- context [write_actions ?j l ?e' ?w'] =>
        destruct (IH j e' w') as (lines & Hrun & Hlen & Hlines)
    end.
    rewrite Hrun.
    eexists (_ :: lines). split; [|split].
    + destruct w. unfold log_all. simpl. rewrite <- app_assoc. reflexivity.
    + simpl. now rewrite Hlen.
    + intros [|k] b Hk; simpl in *.
      * inversion Hk; subst b. eexists; split; [reflexivity|].
        exists d, ty. rewrite Z.add_0_r. repeat split. exact Hty.
      * destruct (Hlines k b Hk) as (u & Hu & Hshows).
        exists u. split; [exact Hu|].
        replace (i + Z.of_nat (S k))%Z with (i + 1 + Z.of_nat k)%Z by lia.
        exact Hshows.
Qed.

(** C9, as amended. A successful poll of an active session whose actions
    are action records reports the length of the actions sequence, whatever
    the [actionsCount] field of the session says (the field is not read),
    and then writes the last five entries of the sequence, in the order of
    the sequence and numbered from one; with fewer than five entries it
    writes all of them, and with none it shows no count but the notice that
    nothing was captured. *)
Theorem get_recording_status_shows_recent
    (e : env) (w : world) (session_id : json) (r : response)
    (body session : list (string * json)) (actions : list json) :
  session_state w !! "recording_session_id" = Some session_id ->
  backend e (requests_made w) (poll_request session_id) = Responded r ->
  status_code r = 200%Z ->
  json_body r = Some (JObj body) ->
  assoc "session" body = Some (JObj session) ->
  assoc "actions" session = Some (JList actions) ->
  Forall has_type actions ->
  exists shown,
    get_recording_status e w
    = (Ok tt, log_all (Request (poll_request session_id) :: map Ui shown) w) /\
    match actions with
    | [] =>
        shown = [st_info [Lit "No actions captured yet - make sure your extension is connected and active"]]
    | _ :: _ =>
        exists lines,
          shown = st_success [Lit "📊 Captured "; Val (JNum (Z.of_nat (length actions)));
                              Lit " actions so far"]
                  :: st_expander "📋 Recent Actions" :: lines /\
          length lines = Nat.min 5 (length actions) /\
          forall k, k < length lines ->
            exists action u,
              actions !! (length actions - length lines + k) = Some action /\
              lines !! k = Some u /\
              shows_action (Z.of_nat k + 1) action u
    end.
Proof.
  intros Hid Hresp Hstatus Hbody Hsession Hactions Htyped.
  unfold get_recording_status, poll_request in *. run.
  destruct w as [ss fl ds tr cr dr]. run. run_in Hid. run_in Hresp.
  rewrite Hid. cbv beta iota delta [negb]. run. rewrite Hid. run.
  rewrite Hresp. run. rewrite Hstatus. change (200 =? 200)%Z with true. run.
  rewrite Hbody. run. rewrite Hsession. run. rewrite Hactions. run.
  destruct actions as [|a0 actions'].
  { simpl. run. eexists. split; [|reflexivity].
    unfold log_all. simpl. rewrite <- app_assoc. reflexivity. }
  set (actions := a0 :: actions') in *.
  change (0 <? length actions)%nat with true. run.
  unfold write_recent_actions.
  assert (Forall has_type (last_five actions)) as Hlast.
  { unfold last_five. now apply Forall_drop. }
  match goal with
  | |- context [write_actions 1 _ ?e' ?w'] =>
      destruct (write_actions_run _ Hlast 1%Z e' w') as (lines & Hrun & Hlen & Hlines)
  end.
  rewrite Hrun.
  assert (length lines = Nat.min 5 (length actions)) as Hmin.
  { rewrite Hlen. unfold last_five. rewrite length_drop. lia. }
  exists (st_success [Lit "📊 Captured "; Val (JNum (Z.of_nat (length actions)));
                      Lit " actions so far"]
          :: st_expander "📋 Recent Actions" :: lines).
  split.
  - unfold log_all. simpl. rewrite <- !app_assoc. reflexivity.
  - exists lines. split; [reflexivity|]. split; [exact Hmin|].
    intros k Hk.
    destruct (lookup_lt_is_Some_2 (last_five actions) k) as [action Haction].
    { rewrite <- Hlen. exact Hk. }
    destruct (Hlines k action Haction) as (u & Hu & Hshows).
    exists action, u. split; [|split].
    + unfold last_five in Haction. rewrite lookup_drop in Haction.
      replace (length actions - length lines + k) with (length actions - 5 + k) by lia.
      exact Haction.
    + exact Hu.
    + now rewrite Z.add_comm.
Qed.

(** *** File names *)

Lemma suffix_alphabet_get (n : nat) :
  n < 36 ->
  exists c, String.get n suffix_alphabet = Some c /\ is_lower_alnum c = true.
Proof.
  intros Hn.
  do 36 (destruct n as [|n]; [eexists; split; reflexivity|]).
  lia.
Qed.

Lemma draw_chars_suffix (r : nat -> nat) (k from : nat) :
  exists s,
    draw_chars suffix_alphabet r from k = Some s /\
    String.length s = k /\
    string_forall is_lower_alnum s = true.
Proof.
  revert from. induction k as [|k IH]; intros from.
  - exists EmptyString. repeat split.
  - destruct (suffix_alphabet_get (r from mod 36)) as (c & Hc & Halnum).
    { apply Nat.mod_upper_bound. discriminate. }
    destruct (IH (S from)) as (s & Hs & Hlen & Hall).
    exists (String c s).
    cbn [draw_chars]. change (String.length suffix_alphabet) with 36.
    rewrite Hc, Hs. cbn [String.length string_forall].
    rewrite Hlen, Halnum, Hall. repeat split.
Qed.

Lemma random_suffix_run (e : env) (w : world) :
  exists suffix,
    random_choices suffix_alphabet 8 e w = (Ok suffix, tick_draws 8 w) /\
    String.length suffix = 8 /\
    string_forall is_lower_alnum suffix = true.
Proof.
  destruct (draw_chars_suffix (rng e) 8 (draws w)) as (s & Hs & Hlen & Hall).
  exists s. unfold random_choices. rewrite Hs. repeat split; assumption.
Qed.

Lemma string_forall_app (p : ascii -> bool) (s t : string) :
  string_forall p (s +:+ t) = string_forall p s && string_forall p t.
Proof.
  induction s as [|c s IH]; simpl; [reflexivity|].
  rewrite IH. now rewrite andb_assoc.
Qed.

Lemma string_forall_impl (p q : ascii -> bool) (s : string) :
  (forall c, p c = true -> q c = true) ->
  string_forall p s = true -> string_forall q s = true.
Proof.
  intros Hpq. induction s as [|c s IH]; simpl; [reflexivity|].
  intros [Hc Hs]%andb_true_iff. rewrite (Hpq c Hc), (IH Hs). reflexivity.
Qed.

Lemma lower_alnum_not_dot (c : ascii) : is_lower_alnum c = true -> not_dot c = true.
Proof.
  unfold is_lower_alnum, not_dot. intros H.
  destruct (Ascii.eqb c ".") eqn:Heq; [|reflexivity].
  apply Ascii.eqb_eq in Heq. subst c. discriminate H.
Qed.

(** Replacing [.py] leaves a dot-free prefix alone. *)
Lemma replace_py_after_prefix (p rest : string) :
  string_forall not_dot p = true ->
  replace ".py" "_metadata.json" (p +:+ rest)
  = p +:+ replace ".py" "_metadata.json" rest.
Proof.
  unfold replace. induction p as [|c p IH]; intros Hp; [reflexivity|].
  simpl in Hp. apply andb_true_iff in Hp as [Hc Hp].
  change (String c p +:+ rest) with (String c (p +:+ rest)).
  cbn [replace_from String.prefix].
  destruct (ascii_dec "." c) as [<-|_]; [discriminate Hc|].
  simpl. now rewrite IH.
Qed.

(** [clean_name.replace('.py', '_metadata.json')] is the metadata name:
    the suffix holds no dot, so only the extension is replaced. *)
Section MetadataName.
Variable suffix : string.
Hypothesis suffix_alnum : string_forall is_lower_alnum suffix = true.

Lemma source_stem_has_no_dot :
  string_forall not_dot ("browser_tool_" +:+ suffix) = true.
Proof.
  rewrite string_forall_app. apply andb_true_iff. split; [reflexivity|].
  exact (string_forall_impl _ _ _ lower_alnum_not_dot suffix_alnum).
Qed.

Lemma metadata_name_from_source :
  replace ".py" "_metadata.json" (source_name suffix) = metadata_name suffix.
Proof.
  unfold source_name, metadata_name.
  change ("browser_tool_" +:+ suffix +:+ ".py")
    with (("browser_tool_" +:+ suffix) +:+ ".py").
  now rewrite (replace_py_after_prefix _ _ source_stem_has_no_dot).
Qed.
End MetadataName.

Lemma string_app_inv_head (s a b : string) : s +:+ a = s +:+ b -> a = b.
Proof. induction s as [|c s IH]; simpl; [tauto|]. intros [= H]. auto. Qed.

Lemma string_app_assoc (a b c : string) : (a +:+ b) +:+ c = a +:+ b +:+ c.
Proof.
  induction a as [|x a IH]; [reflexivity|].
  change (String x ((a +:+ b) +:+ c) = String x (a +:+ b +:+ c)).
  now rewrite IH.
Qed.

(** Joining a directory and a name that does not start with a slash puts
    the name behind a prefix that depends on the directory only. *)
Lemma path_join_relative (dir : string) :
  exists base, forall c name, Ascii.eqb c "/" = false ->
    path_join dir (String c name) = base +:+ String c name.
Proof.
  exists (if String.eqb dir "" || ends_with_slash dir then dir else dir +:+ "/").
  intros c name Hc. unfold path_join. cbn [String.prefix].
  destruct (ascii_dec "/" c) as [<-|_]; [discriminate Hc|].
  destruct (String.eqb dir "" || ends_with_slash dir); [reflexivity|].
  symmetry. apply string_app_assoc.
Qed.

(** The source file and its metadata file are two files. *)
Lemma source_path_not_metadata_path (dir suffix : string) :
  path_join dir (source_name suffix) <> path_join dir (metadata_name suffix).
Proof.
  destruct (path_join_relative dir) as (base & Hbase).
  change (source_name suffix)
    with (String "b" (("rowser_tool_" +:+ suffix) +:+ ".py")).
  change (metadata_name suffix)
    with (String "b" (("rowser_tool_" +:+ suffix) +:+ "_metadata.json")).
  rewrite !Hbase by reflexivity.
  intros H%string_app_inv_head. injection H as H.
  apply string_app_inv_head in H. discriminate H.
Qed.

(** *** The local copy *)

Lemma save_local_copy_healthy (e : env) (w : world)
    (tool_name tool_description : string) (tool_code : json) (session_id : string) :
  disk_healthy e ->
  exists suffix,
    String.length suffix = 8 /\
    string_forall is_lower_alnum suffix = true /\
    save_local_copy tool_name tool_description tool_code session_id e w
    = (Ok true, after_local_save e tool_name tool_description tool_code session_id suffix w).
Proof.
  intros Hdisk. destruct w as [ss fl ds tr cr dr].
  destruct (random_suffix_run e (Build_world ss fl ds tr cr dr))
    as (suffix & Hdraw & Hlen & Halnum).
  exists suffix. split; [exact Hlen|]. split; [exact Halnum|].
  unfold save_local_copy. run. rewrite Hdraw. run.
  repeat (rewrite Hdisk; run).
  fold (source_name suffix). rewrite (metadata_name_from_source suffix Halnum).
  unfold after_local_save, tools_dir_of, source_file, metadata_file. run.
  rewrite <- !app_assoc. reflexivity.
Qed.

Ltac quiet_steps :=
  split; [reflexivity|]; eexists; split;
  [rewrite <- ?app_assoc; reflexivity | simpl; repeat constructor].

Lemma save_local_copy_total (e : env) (w : world)
    (tool_name tool_description : string) (tool_code : json) (session_id : string) :
  exists (saved : bool) (evs : list event) (w' : world),
    save_local_copy tool_name tool_description tool_code session_id e w = (Ok saved, w') /\
    session_state w' = session_state w /\
    trace w' = (trace w ++ Fs (Makedirs (tools_dir_of e)) :: evs)%list /\
    Forall (fun ev => is_fs ev = true) evs.
Proof.
  destruct w as [ss fl ds tr cr dr].
  destruct (random_suffix_run e (Build_world ss fl ds tr cr dr))
    as (suffix & Hdraw & _ & _).
  unfold save_local_copy. run. rewrite Hdraw. unfold tools_dir_of.
  exec; do 3 eexists; (split; [reflexivity|]); (split; [reflexivity|]); run;
    (split; [rewrite <- ?app_assoc; reflexivity | repeat constructor]).
Qed.

(** *** Saving *)

Lemma nonempty_eqb (s : string) : s <> "" -> String.eqb s "" = false.
Proof. intros Hs. now apply String.eqb_neq. Qed.

Lemma save_guard_passes (tool_name tool_code session_id : string) :
  tool_name <> "" -> tool_code <> "" -> session_id <> "" ->
  String.eqb tool_name "" || negb (truthy (JStr tool_code)) || String.eqb session_id ""
  = false.
Proof.
  intros Hn Hc Hs. simpl.
  now rewrite (nonempty_eqb _ Hn), (nonempty_eqb _ Hc), (nonempty_eqb _ Hs).
Qed.

(** What the healthy local save leaves behind, read off [after_local_save]. *)
Lemma after_local_save_effects (e : env) (tool_name tool_description : string)
    (tool_code : json) (session_id suffix : string) (w : world) :
  let w' := after_local_save e tool_name tool_description tool_code session_id suffix w in
  let src := path_join (tools_dir_of e) (source_name suffix) in
  let meta := path_join (tools_dir_of e) (metadata_name suffix) in
  let source := source_file tool_name tool_description tool_code session_id suffix in
  let metadata :=
    metadata_file tool_name tool_description session_id suffix (clock e (clock_reads w)) in
  fs_ops_of (trace w')
  = (fs_ops_of (trace w)
     ++ [Makedirs (tools_dir_of e); WriteFile src source; WriteFile meta metadata])%list /\
  requests_of (trace w') = requests_of (trace w) /\
  files w' = <[meta := metadata]> (<[src := source]> (files w)) /\
  files w' !! src = Some source /\
  files w' !! meta = Some metadata /\
  session_state w' = session_state w.
Proof.
  destruct w as [ss fl ds tr cr dr]. unfold after_local_save. simpl.
  unfold fs_ops_of, requests_of. rewrite !omap_app. simpl. rewrite app_nil_r.
  repeat split.
  - rewrite lookup_insert_ne by (apply not_eq_sym, source_path_not_metadata_path).
    apply lookup_insert_eq.
  - apply lookup_insert_eq.
Qed.

(** When the registration request fails, saving is the local save made
    after the request. *)
Lemma save_after_failed_registration (e : env) (w : world)
    (tool_name tool_description tool_code session_id : string) :
  tool_name <> "" -> tool_code <> "" -> session_id <> "" ->
  let request :=
    register_request tool_name tool_description tool_code session_id
      (clock e (clock_reads w)) in
  request_failed (backend e (requests_made w) request) = true ->
  save_tool_to_resources tool_name tool_description (JStr tool_code) session_id e w
  = save_local_copy tool_name tool_description (JStr tool_code) session_id e
      (log (Request request) (tick_clock w)).
Proof.
  intros Hn Hc Hs request Hfailed. subst request.
  destruct w as [ss fl ds tr cr dr].
  unfold save_tool_to_resources, register_request, request_failed in *.
  run. run_in Hfailed.
  rewrite (save_guard_passes _ _ _ Hn Hc Hs). run.
  destruct (backend e _ _) as [r|n]; run.
  - destruct (status_code r =? 200)%Z; [discriminate Hfailed|].
    destruct (save_local_copy_total e
                (Build_world ss fl ds (tr ++ [Request
                  (register_request tool_name tool_description tool_code session_id
                     (clock e cr))]) (S cr) dr)
                tool_name tool_description (JStr tool_code) session_id)
      as (saved & evs & w' & Hrun & _).
    unfold register_request in Hrun. rewrite Hrun. reflexivity.
  - reflexivity.
Qed.

(** C2. With non-empty inputs, a failing registration request and a healthy
    disk, saving returns true after the local save: beyond creating the
    tools directory it writes exactly two files there, the source file
    [browser_tool_<suffix>.py] and the metadata file
    [browser_tool_<suffix>_metadata.json], for one suffix of eight lowercase
    letters or digits; the metadata records the name of the source file. *)
Theorem save_falls_back_to_local_copy (e : env) (w : world)
    (tool_name tool_description tool_code session_id : string) :
  tool_name <> "" -> tool_code <> "" -> session_id <> "" ->
  request_failed
    (backend e (requests_made w)
       (register_request tool_name tool_description tool_code session_id
          (clock e (clock_reads w)))) = true ->
  disk_healthy e ->
  exists suffix w',
    save_tool_to_resources tool_name tool_description (JStr tool_code) session_id e w
    = (Ok true, w') /\
    String.length suffix = 8 /\
    string_forall is_lower_alnum suffix = true /\
    let request :=
      register_request tool_name tool_description tool_code session_id
        (clock e (clock_reads w)) in
    let src := path_join (tools_dir_of e) (source_name suffix) in
    let meta := path_join (tools_dir_of e) (metadata_name suffix) in
    let source := source_file tool_name tool_description (JStr tool_code) session_id suffix in
    let metadata :=
      metadata_file tool_name tool_description session_id suffix
        (clock e (S (clock_reads w))) in
    src <> meta /\
    requests_of (trace w') = (requests_of (trace w) ++ [request])%list /\
    fs_ops_of (trace w')
    = (fs_ops_of (trace w)
       ++ [Makedirs (tools_dir_of e); WriteFile src source; WriteFile meta metadata])%list /\
    files w' = <[meta := metadata]> (<[src := source]> (files w)) /\
    files w' !! src = Some source /\
    files w' !! meta = Some metadata.
Proof.
  intros Hn Hc Hs Hfailed Hdisk.
  rewrite (save_after_failed_registration e w _ _ _ _ Hn Hc Hs Hfailed).
  match goal with
  | |- context [save_local_copy ?n ?d ?c ?s e ?w0] =>
      destruct (save_local_copy_healthy e w0 n d c s Hdisk)
        as (suffix & Hlen & Halnum & Hrun);
      pose proof (after_local_save_effects e n d c s suffix w0)
        as (Hfs & Hreq & Hfiles & Hsrc & Hmeta & _)
  end.
  exists suffix. eexists. split; [exact Hrun|].
  split; [exact Hlen|]. split; [exact Halnum|].
  destruct w as [ss fl ds tr cr dr].
  cbv zeta. split; [apply source_path_not_metadata_path|].
  rewrite Hreq, Hfs, Hsrc, Hmeta, Hfiles. clear.
  unfold requests_of, fs_ops_of. simpl. rewrite !omap_app. simpl.
  rewrite !app_nil_r. repeat split.
Qed.

(** When the registration request succeeds, saving makes the local save
    after the request, drops its result and returns true. *)
Lemma save_after_successful_registration (e : env) (w : world)
    (tool_name tool_description tool_code session_id : string) (r : response) :
  tool_name <> "" -> tool_code <> "" -> session_id <> "" ->
  let request :=
    register_request tool_name tool_description tool_code session_id
      (clock e (clock_reads w)) in
  backend e (requests_made w) request = Responded r ->
  status_code r = 200%Z ->
  exists saved w',
    save_local_copy tool_name tool_description (JStr tool_code) session_id e
      (log (Request request) (tick_clock w)) = (Ok saved, w') /\
    save_tool_to_resources tool_name tool_description (JStr tool_code) session_id e w
    = (Ok true, w').
Proof.
  intros Hn Hc Hs request Hresp Hstatus. subst request.
  destruct (save_local_copy_total e
              (log (Request (register_request tool_name tool_description tool_code
                               session_id (clock e (clock_reads w)))) (tick_clock w))
              tool_name tool_description (JStr tool_code) session_id)
    as (saved & evs & w' & Hrun & _).
  exists saved, w'. split; [exact Hrun|].
  destruct w as [ss fl ds tr cr dr].
  unfold save_tool_to_resources, register_request in *.
  run. run_in Hresp. run_in Hrun.
  rewrite (save_guard_passes _ _ _ Hn Hc Hs). run.
  rewrite Hresp. run. rewrite Hstatus. change (200 =? 200)%Z with true. run.
  rewrite Hrun. reflexivity.
Qed.

(** C3. With non-empty inputs and a registration request answered with
    status 200, saving returns true and the local save is still made: the
    tools directory is created right after the request, and on a healthy
    disk the source file and the metadata file are written as in the
    fallback. *)
Theorem save_keeps_local_copy_after_registration (e : env) (w : world)
    (tool_name tool_description tool_code session_id : string) (r : response) :
  tool_name <> "" -> tool_code <> "" -> session_id <> "" ->
  backend e (requests_made w)
    (register_request tool_name tool_description tool_code session_id
       (clock e (clock_reads w))) = Responded r ->
  status_code r = 200%Z ->
  exists w',
    save_tool_to_resources tool_name tool_description (JStr tool_code) session_id e w
    = (Ok true, w') /\
    let request :=
      register_request tool_name tool_description tool_code session_id
        (clock e (clock_reads w)) in
    (exists evs : list event,
        trace w' = (trace w ++ Request request :: Fs (Makedirs (tools_dir_of e)) :: evs)%list) /\
    (disk_healthy e ->
     exists suffix,
       String.length suffix = 8 /\
       string_forall is_lower_alnum suffix = true /\
       let src := path_join (tools_dir_of e) (source_name suffix) in
       let meta := path_join (tools_dir_of e) (metadata_name suffix) in
       let source :=
         source_file tool_name tool_description (JStr tool_code) session_id suffix in
       let metadata :=
         metadata_file tool_name tool_description session_id suffix
           (clock e (S (clock_reads w))) in
       src <> meta /\
       fs_ops_of (trace w')
       = (fs_ops_of (trace w)
          ++ [Makedirs (tools_dir_of e); WriteFile src source; WriteFile meta metadata])%list /\
       files w' !! src = Some source /\
       files w' !! meta = Some metadata).
Proof.
  intros Hn Hc Hs Hresp Hstatus.
  destruct (save_after_successful_registration e w _ _ _ _ r Hn Hc Hs Hresp Hstatus)
    as (saved & w' & Hlocal & Hrun).
  exists w'. split; [exact Hrun|]. cbv zeta. split.
  - match type of Hlocal with
    | save_local_copy ?n ?d ?c ?s e ?w0 = _ =>
        destruct (save_local_copy_total e w0 n d c s)
          as (saved' & evs & w'' & Hrun' & _ & Htrace & _)
    end.
    rewrite Hlocal in Hrun'. injection Hrun' as _ <-.
    exists evs. rewrite Htrace. destruct w as [ss fl ds tr cr dr]. simpl.
    now rewrite <- app_assoc.
  - intros Hdisk.
    match type of Hlocal with
    | save_local_copy ?n ?d ?c ?s e ?w0 = _ =>
        destruct (save_local_copy_healthy e w0 n d c s Hdisk)
          as (suffix & Hlen & Halnum & Hrun');
        pose proof (after_local_save_effects e n d c s suffix w0)
          as (Hfs & _ & _ & Hsrc & Hmeta & _)
    end.
    rewrite Hlocal in Hrun'. injection Hrun' as _ ->.
    exists suffix. split; [exact Hlen|]. split; [exact Halnum|].
    split; [apply source_path_not_metadata_path|].
    rewrite Hfs, Hsrc, Hmeta. clear.
    destruct w as [ss fl ds tr cr dr].
    unfold fs_ops_of. simpl. rewrite !omap_app. simpl.
    rewrite !app_nil_r. repeat split.
Qed.

(** *** Quiet steps *)

Lemma quiet_step_refl (w : world) : quiet_step w w.
Proof. split; [reflexivity|]. exists []. split; [now rewrite app_nil_r|constructor]. Qed.

Lemma quiet_step_trans (w1 w2 w3 : world) :
  quiet_step w1 w2 -> quiet_step w2 w3 -> quiet_step w1 w3.
Proof.
  intros (Hs1 & evs1 & Ht1 & Hq1) (Hs2 & evs2 & Ht2 & Hq2). split.
  - now rewrite Hs2.
  - exists (evs1 ++ evs2)%list. split.
    + now rewrite Ht2, Ht1, app_assoc.
    + now apply Forall_app.
Qed.

Lemma codes_shown_app (t1 t2 : list event) :
  codes_shown (t1 ++ t2) = (codes_shown t1 ++ codes_shown t2)%list.
Proof. apply omap_app. Qed.

Lemma codes_shown_cons (ev : event) (t : list event) :
  codes_shown (ev :: t)
  = match ev with
    | Ui (st_code v) => v :: codes_shown t
    | _ => codes_shown t
    end.
Proof. destruct ev as [r|op|u]; [| |destruct u]; reflexivity. Qed.

Lemma quiet_events (evs : list event) :
  Forall (fun ev => quiet ev = true) evs ->
  codes_shown evs = [] /\ count_events is_generate_request evs = 0.
Proof.
  induction 1 as [|ev evs Hev _ [IHc IHn]]; [split; reflexivity|].
  rewrite codes_shown_cons. cbn [count_events]. rewrite IHc, IHn.
  unfold quiet in Hev.
  destruct ev as [r|op|u]; [| |destruct u]; try discriminate Hev;
    try (split; reflexivity).
  destruct (is_generate_request (Request r)); [discriminate Hev|].
  split; reflexivity.
Qed.

Lemma quiet_step_observed (w w' : world) :
  quiet_step w w' ->
  session_state w' = session_state w /\
  codes_shown (trace w') = codes_shown (trace w) /\
  count_events is_generate_request (trace w')
  = count_events is_generate_request (trace w).
Proof.
  intros (Hs & evs & Ht & Hq). destruct (quiet_events evs Hq) as [Hc Hn].
  split; [exact Hs|]. rewrite Ht, codes_shown_app, count_events_app, Hc, Hn.
  split; [apply app_nil_r | lia].
Qed.

Lemma fs_events_quiet (evs : list event) :
  Forall (fun ev => is_fs ev = true) evs -> Forall (fun ev => quiet ev = true) evs.
Proof.
  intros Hfs. eapply Forall_impl; [exact Hfs|].
  intros [r|op|u] H; try discriminate H. reflexivity.
Qed.

Lemma save_local_copy_quiet (e : env) (w : world)
    (tool_name tool_description : string) (tool_code : json) (session_id : string) :
  exists saved w',
    save_local_copy tool_name tool_description tool_code session_id e w = (Ok saved, w') /\
    quiet_step w w'.
Proof.
  destruct (save_local_copy_total e w tool_name tool_description tool_code session_id)
    as (saved & evs & w' & Hrun & Hs & Ht & Hfs).
  exists saved, w'. split; [exact Hrun|]. split; [exact Hs|].
  eexists. split; [exact Ht|]. constructor; [reflexivity|].
  now apply fs_events_quiet.
Qed.

Ltac use_local_copy :=
  match goal with
  | |- context [save_local_copy ?n ?d ?c ?s ?e ?w0] =>
      let saved := fresh "saved" in
      let w' := fresh "w'" in
      let Hrun := fresh "Hrun" in
      let Hq := fresh "Hq" in
      destruct (save_local_copy_quiet e w0 n d c s) as (saved & w' & Hrun & Hq);
      rewrite Hrun; run;
      do 2 eexists; (split; [reflexivity|]);
      first [exact Hq | eapply quiet_step_trans; [|exact Hq]; quiet_steps]
  end.

(** Saving never raises, leaves the session state alone, shows no code and
    sends no generate-tool request. *)
Lemma save_tool_to_resources_quiet (e : env) (w : world)
    (tool_name tool_description : string) (tool_code : json) (session_id : string) :
  exists saved w',
    save_tool_to_resources tool_name tool_description tool_code session_id e w
    = (Ok saved, w') /\
    quiet_step w w'.
Proof.
  destruct w as [ss fl ds tr cr dr]. unfold save_tool_to_resources. run.
  destruct (String.eqb tool_name "" || negb (truthy tool_code) || String.eqb session_id "").
  { do 2 eexists. split; [reflexivity|]. apply quiet_step_refl. }
  destruct tool_code; run; try use_local_copy.
  destruct (backend e _ _) as [r|n]; run; [|use_local_copy].
  destruct (status_code r =? 200)%Z; run; use_local_copy.
Qed.

Lemma on_save_button_quiet (e : env) (w : world)
    (tool_name tool_description : string) (tool_code : json) (session_id : string) :
  exists w',
    on_save_button tool_name tool_description tool_code session_id e w = (Ok tt, w') /\
    quiet_step w w'.
Proof.
  destruct w as [ss fl ds tr cr dr]. unfold on_save_button. run.
  destruct (is_blank tool_name).
  { eexists. split; [reflexivity|]. quiet_steps. }
  match goal with
  | |- context [save_tool_to_resources ?n ?d ?c ?s ?e ?w0] =>
      destruct (save_tool_to_resources_quiet e w0 n d c s) as (saved & w' & Hrun & Hq)
  end.
  rewrite Hrun. destruct w' as [ss' fl' ds' tr' cr' dr'].
  destruct saved; run; eexists; (split; [reflexivity|]);
    (eapply quiet_step_trans; [|eapply quiet_step_trans; [exact Hq|]]); quiet_steps.
Qed.

(** *** The generator *)

(** The cache entry of a session is no other entry that the generator
    touches. *)
Lemma generation_key_distinct (session_id : string) :
  generation_key session_id <> "tools_tab_tool_name_" +:+ session_id /\
  generation_key session_id <> "tools_tab_tool_desc_" +:+ session_id /\
  generation_key session_id <> "last_completed_session" /\
  generation_key session_id <> "selected_session_for_tool".
Proof.
  unfold generation_key.
  repeat split; intros H; apply (f_equal (String.get 0)) in H as H0;
    apply (f_equal (String.get 4)) in H; cbv in H, H0; congruence.
Qed.

Ltac step_state :=
  first
    [ rewrite lookup_insert_eq
    | match goal with
      | H : ?x = _ |- context [match ?x with _ => _ end] => rewrite H
      end
    | match goal with
      | |- context [match ?m !! ?k with _ => _ end] =>
          lazymatch m with
          | context [match _ with _ => _ end] => fail
          | _ => destruct (m !! k) eqn:?
          end
      end ];
  cbv beta iota zeta delta [negb]; run.

Lemma show_generated_tool_run (e : env) (w : world) (wd : generate_widgets)
    (session_id : string) (entry : list (string * json)) (code name description : json) :
  session_state w !! generation_key session_id = Some (JObj entry) ->
  assoc "tool_code" entry = Some code ->
  assoc "tool_name" entry = Some name ->
  assoc "tool_description" entry = Some description ->
  exists r w',
    show_generated_tool wd session_id e w = (r, w') /\
    (r = Ok tt \/ r = Raise RerunException) /\
    session_state w' !! generation_key session_id = Some (JObj entry) /\
    codes_shown (trace w') = (codes_shown (trace w) ++ [code])%list /\
    count_events is_generate_request (trace w')
    = count_events is_generate_request (trace w).
Proof.
  intros Hentry Hcode Hname Hdescription.
  destruct (generation_key_distinct session_id) as (Hk1 & Hk2 & Hk3 & Hk4).
  destruct w as [ss fl ds tr cr dr]. run_in Hentry.
  destruct wd as [tool_name tool_description save start_new view_all].
  unfold show_generated_tool. run.
  rewrite Hentry. run. rewrite Hcode, Hname, Hdescription. run.
  do 4 step_state;
    cbv beta iota zeta delta
      [save_button tool_name_input tool_description_input
       start_new_recording_button view_all_sessions_button];
    destruct save; run.
  all: try
    (match goal with
     | |- context [on_save_button ?n ?d ?c ?s ?e ?w0] =>
         destruct (on_save_button_quiet e w0 n d c s) as (w' & Hrun & Hq)
     end;
     rewrite Hrun; apply quiet_step_observed in Hq as (Hs & Hc & Hn);
     destruct w' as [ss' fl' ds' tr' cr' dr']; run_in Hs; run_in Hc; run_in Hn;
     subst ss'; run).
  all: destruct start_new, view_all; run; rewrite ?del_if_present_run; run;
    rewrite ?del_if_present_run; run;
    (do 2 eexists; split; [reflexivity|]; run; split; [auto|]; split;
     [ rewrite ?lookup_delete_ne, ?lookup_insert_ne by congruence; exact Hentry
     | unfold codes_shown in *; rewrite ?omap_app, ?count_events_app, ?Hc, ?Hn;
       rewrite ?omap_app, ?count_events_app; simpl;
       rewrite ?app_nil_r, <- ?app_assoc; split; [reflexivity | lia] ]).
Qed.

(** A call that finds the generation in the session state sends no request
    and shows the stored code. *)
Lemma generate_tool_code_from_cache (e : env) (w : world) (wd : generate_widgets)
    (session_id : string) (entry : list (string * json)) (code name description : json) :
  session_state w !! generation_key session_id = Some (JObj entry) ->
  assoc "tool_code" entry = Some code ->
  assoc "tool_name" entry = Some name ->
  assoc "tool_description" entry = Some description ->
  exists r w',
    generate_tool_code wd session_id e w = (r, w') /\
    session_state w' !! generation_key session_id = Some (JObj entry) /\
    codes_shown (trace w') = (codes_shown (trace w) ++ [code])%list /\
    count_events is_generate_request (trace w')
    = count_events is_generate_request (trace w).
Proof.
  intros Hentry Hcode Hname Hdescription.
  destruct (show_generated_tool_run e w wd session_id entry code name description
              Hentry Hcode Hname Hdescription)
    as (r & w' & Hrun & Hr & Hkept & Hcodes & Hcount).
  exists r, w'.
  destruct w as [ss fl ds tr cr dr]. run_in Hentry.
  unfold generate_tool_code, request_generation. run.
  rewrite Hentry. cbv beta iota zeta delta [negb]. run.
  rewrite Hentry. run. rewrite Hrun.
  destruct Hr as [-> | ->]; run; auto.
Qed.

(** The first call: the generation is requested, stored and shown. *)
Lemma generate_tool_code_first (e : env) (w : world) (wd : generate_widgets)
    (session_id : string) (r : response) (body : list (string * json)) (code : json) :
  session_state w !! generation_key session_id = None ->
  backend e (requests_made w) (generate_request session_id) = Responded r ->
  status_code r = 200%Z ->
  json_body r = Some (JObj body) ->
  assoc "toolCode" body = Some code ->
  exists r1 w1 entry name description,
    generate_tool_code wd session_id e w = (r1, w1) /\
    session_state w1 !! generation_key session_id = Some (JObj entry) /\
    assoc "tool_code" entry = Some code /\
    assoc "tool_name" entry = Some name /\
    assoc "tool_description" entry = Some description /\
    codes_shown (trace w1) = (codes_shown (trace w) ++ [code])%list /\
    count_events is_generate_request (trace w1)
    = count_events is_generate_request (trace w) + 1.
Proof.
  intros Hnone Hresp Hstatus Hbody Hcode.
  destruct w as [ss fl ds tr cr dr]. run_in Hnone. run_in Hresp.
  unfold generate_request in Hresp.
  unfold generate_tool_code, request_generation. run.
  rewrite Hnone. cbv beta iota zeta delta [negb]. run.
  rewrite Hresp. run. rewrite Hstatus. change (200 =? 200)%Z with true. run.
  rewrite Hbody. run. rewrite Hcode. run.
  rewrite lookup_insert_eq. run.
  match goal with
  | |- context [show_generated_tool wd session_id e ?w0] =>
      match w0 with
      | context [<[_ := JObj ?entry]> _] =>
          destruct (show_generated_tool_run e w0 wd session_id entry code
                      (JStr ("browser_automation_" +:+ utf8_prefix 6 session_id))
                      (JStr "Automated browser workflow generated from recorded session"))
            as (r1 & w1 & Hrun & Hr & Hkept & Hcodes & Hcount);
          [apply lookup_insert_eq | reflexivity | reflexivity | reflexivity |];
          exists r1, w1, entry
      end
  end.
  do 2 eexists. rewrite Hrun.
  split; [destruct Hr as [-> | ->]; reflexivity|].
  destruct w1 as [ss1 fl1 ds1 tr1 cr1 dr1].
  run_in Hkept. run_in Hcodes. run_in Hcount. run.
  split; [exact Hkept|]. repeat (split; [reflexivity|]).
  rewrite Hcodes, Hcount.
  unfold codes_shown. rewrite omap_app, count_events_app. simpl.
  rewrite app_nil_r. split; [reflexivity|lia].
Qed.

(** C1. When a session has no generation in the session state and the
    backend answers the generate-tool request with status 200 and a tool
    code, a first call shows that code and stores it under the session id; a
    second call in the resulting state shows the same code, and the two
    calls together send exactly one generate-tool request, made by the
    first. *)
Theorem generate_tool_code_twice (e : env) (w : world) (wd1 wd2 : generate_widgets)
    (session_id : string) (r : response) (body : list (string * json)) (code : json) :
  session_state w !! generation_key session_id = None ->
  backend e (requests_made w) (generate_request session_id) = Responded r ->
  status_code r = 200%Z ->
  json_body r = Some (JObj body) ->
  assoc "toolCode" body = Some code ->
  exists r1 w1 r2 w2,
    generate_tool_code wd1 session_id e w = (r1, w1) /\
    generate_tool_code wd2 session_id e w1 = (r2, w2) /\
    codes_shown (trace w1) = (codes_shown (trace w) ++ [code])%list /\
    codes_shown (trace w2) = (codes_shown (trace w1) ++ [code])%list /\
    count_events is_generate_request (trace w1)
    = count_events is_generate_request (trace w) + 1 /\
    count_events is_generate_request (trace w2)
    = count_events is_generate_request (trace w) + 1.
Proof.
  intros Hnone Hresp Hstatus Hbody Hcode.
  destruct (generate_tool_code_first e w wd1 session_id r body code
              Hnone Hresp Hstatus Hbody Hcode)
    as (r1 & w1 & entry & name & description & Hrun1 & Hentry & Hc & Hn & Hd
        & Hcodes1 & Hcount1).
  destruct (generate_tool_code_from_cache e w1 wd2 session_id entry code name description
              Hentry Hc Hn Hd)
    as (r2 & w2 & Hrun2 & _ & Hcodes2 & Hcount2).
  exists r1, w1, r2, w2. repeat split; try assumption.
  now rewrite Hcount2.
Qed.

(** * The theorems at concrete inputs *)

Lemma generate_tool_code_twice_witness :
  exists r1 w1 r2 w2,
    let e := sample_env (ok_response (JObj [("toolCode", JStr sample_code)])) in
    generate_tool_code (sample_widgets false) "s-42" e fresh_world = (r1, w1) /\
    generate_tool_code (sample_widgets true) "s-42" e w1 = (r2, w2) /\
    codes_shown (trace w1) = [JStr sample_code] /\
    codes_shown (trace w2) = [JStr sample_code; JStr sample_code] /\
    count_events is_generate_request (trace w2) = 1.
Proof.
  destruct (generate_tool_code_twice
              (sample_env (ok_response (JObj [("toolCode", JStr sample_code)])))
              fresh_world (sample_widgets false) (sample_widgets true) "s-42"
              {| status_code := 200;
                 json_body := Some (JObj [("toolCode", JStr sample_code)]);
                 text := "ok"; content_type := Some "application/json" |}
              [("toolCode", JStr sample_code)] (JStr sample_code))
    as (r1 & w1 & r2 & w2 & Hrun1 & Hrun2 & Hc1 & Hc2 & _ & Hn2);
    [reflexivity | reflexivity | reflexivity | reflexivity | reflexivity |].
  exists r1, w1, r2, w2. cbv zeta.
  split; [exact Hrun1|]. split; [exact Hrun2|].
  split; [exact Hc1|]. split; [rewrite Hc2, Hc1; reflexivity | exact Hn2].
Defined.

Lemma save_falls_back_to_local_copy_witness :
  exists w',
    save_tool_to_resources "login-tool" "Logs into example.com" (JStr sample_code) "s-42"
      (sample_env error_response) fresh_world = (Ok true, w').
Proof.
  destruct (save_falls_back_to_local_copy (sample_env error_response) fresh_world
              "login-tool" "Logs into example.com" sample_code "s-42")
    as (suffix & w' & Hrun & _);
    [discriminate | discriminate | discriminate | reflexivity
    | intros k op; reflexivity |].
  exists w'. exact Hrun.
Defined.

Lemma save_keeps_local_copy_after_registration_witness :
  exists w',
    save_tool_to_resources "login-tool" "Logs into example.com" (JStr sample_code) "s-42"
      (sample_env (ok_response JNull)) fresh_world = (Ok true, w').
Proof.
  destruct (save_keeps_local_copy_after_registration (sample_env (ok_response JNull))
              fresh_world "login-tool" "Logs into example.com" sample_code "s-42"
              {| status_code := 200; json_body := Some JNull;
                 text := "ok"; content_type := Some "application/json" |})
    as (w' & Hrun & _);
    [discriminate | discriminate | discriminate | reflexivity | reflexivity |].
  exists w'. exact Hrun.
Defined.

Lemma check_extension_connection_never_raises_witness :
  exists w',
    check_extension_connection (sample_env (Unreachable NetTimeout)) fresh_world
    = (Ok all_false, w').
Proof.
  destruct (check_extension_connection_never_raises
              (sample_env (Unreachable NetTimeout)) fresh_world)
    as (status & w' & Hrun & _ & _ & Hfalse).
  exists w'. rewrite Hrun. rewrite (Hfalse eq_refl). reflexivity.
Defined.

Lemma stop_recording_success_witness :
  exists w',
    stop_recording (sample_env (ok_response (JObj [("session", sample_session)])))
      recording_world = (Ok tt, w') /\
    session_state w' !! "recording_session_id" = None /\
    session_state w' !! "recording_session_name" = None /\
    session_state w' !! "last_completed_session" = Some sample_session.
Proof.
  destruct (stop_recording_success
              (sample_env (ok_response (JObj [("session", sample_session)])))
              recording_world
              {| status_code := 200;
                 json_body := Some (JObj [("session", sample_session)]);
                 text := "ok"; content_type := Some "application/json" |}
              [("session", sample_session)] sample_session)
    as (w' & Hrun & _ & Hid & Hname & Hlast);
    [reflexivity | reflexivity | reflexivity | reflexivity |].
  exists w'. repeat split; assumption.
Defined.

Lemma failed_start_or_stop_keeps_state_witness :
  (exists msg w',
      start_recording_with_extension "Login Flow" "" (sample_env error_response)
        fresh_world = (Ok tt, w') /\
      w' = log (Ui (st_error msg)) (log (Request (start_request "Login Flow" "")) fresh_world) /\
      session_state w' = session_state fresh_world) /\
  (exists msg w',
      stop_recording (sample_env (Unreachable NetConnectionError)) recording_world
      = (Ok tt, w') /\
      w' = log (Ui (st_error msg)) (log (Request stop_request) recording_world) /\
      session_state w' = session_state recording_world).
Proof.
  split.
  - apply (proj1 (failed_start_or_stop_keeps_state (sample_env error_response) fresh_world)).
    reflexivity.
  - apply (proj2 (failed_start_or_stop_keeps_state
                    (sample_env (Unreachable NetConnectionError)) recording_world)).
    reflexivity.
Defined.

Lemma save_tool_to_resources_rejects_empty_witness :
  save_tool_to_resources "" "Logs into example.com" (JStr sample_code) "s-42"
    (sample_env (ok_response JNull)) fresh_world
  = (Ok false, fresh_world).
Proof.
  apply (save_tool_to_resources_rejects_empty (sample_env (ok_response JNull)) fresh_world
           "" "Logs into example.com" sample_code "s-42").
  left. reflexivity.
Defined.

Lemma get_recording_status_shows_recent_witness :
  exists shown,
    get_recording_status (sample_env (ok_response (JObj [("session", sample_session)])))
      recording_world
    = (Ok tt, log_all (Request (poll_request (JStr "s-42")) :: map Ui shown) recording_world) /\
    length shown = 5.
Proof.
  destruct (get_recording_status_shows_recent
              (sample_env (ok_response (JObj [("session", sample_session)])))
              recording_world (JStr "s-42")
              {| status_code := 200;
                 json_body := Some (JObj [("session", sample_session)]);
                 text := "ok"; content_type := Some "application/json" |}
              [("session", sample_session)]
              [("id", JStr "s-42"); ("name", JStr "Login Flow"); ("status", JStr "stopped");
               ("actionsCount", JNum 3); ("duration", JNum 4200);
               ("actions", JList [sample_action "navigate" "Navigate to https://example.com";
                                  sample_action "click" "Click on Login";
                                  sample_action "type" "Type into Email"])]
              [sample_action "navigate" "Navigate to https://example.com";
               sample_action "click" "Click on Login";
               sample_action "type" "Type into Email"])
    as (shown & Hrun & lines & Hshown & Hlen & _);
    [reflexivity | reflexivity | reflexivity | reflexivity | reflexivity | reflexivity
    | repeat constructor; do 2 eexists; split; reflexivity |].
  exists shown. split; [exact Hrun|].
  rewrite Hshown. simpl. rewrite Hlen. reflexivity.
Defined.

(** C9, as stated, at a session whose [actionsCount] is 99 and whose
    actions sequence has one entry: the poll succeeds and reports one
    action; the count of the field is not reported. *)
Lemma get_recording_status_ignores_actions_count :
  exists w',
    get_recording_status
      (sample_env
         (ok_response
            (JObj [("session",
                    JObj [("id", JStr "s-42"); ("status", JStr "recording");
                          ("actionsCount", JNum 99);
                          ("actions", JList [sample_action "click" "Click on Login"])])])))
      recording_world
    = (Ok tt, w') /\
    ui_calls_of (trace w')
    = [st_success [Lit "📊 Captured "; Val (JNum 1); Lit " actions so far"];
       st_expander "📋 Recent Actions";
       st_write [Val (JNum 1); Lit ". **"; Val (JStr "click"); Lit "**: ";
                 Val (JStr "Click on Login")]] /\
    ~ In (st_success [Lit "📊 Captured "; Val (JNum 99); Lit " actions so far"])
        (ui_calls_of (trace w')).
Proof.
  eexists. split; [vm_compute; reflexivity|]. split; [reflexivity|].
  cbn. intros [H|[H|[H|[]]]]; discriminate H.
Qed.

Lemma get_recording_status_idle_witness :
  get_recording_status (sample_env (Unreachable NetTimeout)) fresh_world
  = (Ok tt, fresh_world).
Proof.
  apply (get_recording_status_idle (sample_env (Unreachable NetTimeout)) fresh_world).
  reflexivity.
Defined.

(** * Further properties *)

(** ** Session lifecycle *)

(** X1. A start answered with status 200, a session id and a message ends
    normally and stores the session id sent by the backend and the session
    name typed by the user; nothing else in the session state changes. *)
Theorem start_recording_stores_session
    (e : env) (w : world) (session_name description : string) (r : response)
    (body : list (string * json)) (session_id message : json) :
  backend e (requests_made w) (start_request session_name description) = Responded r ->
  status_code r = 200%Z ->
  json_body r = Some (JObj body) ->
  assoc "sessionId" body = Some session_id ->
  assoc "message" body = Some message ->
  exists w',
    start_recording_with_extension session_name description e w = (Ok tt, w') /\
    session_state w' =
      <["recording_session_name" := JStr session_name]>
        (<["recording_session_id" := session_id]> (session_state w)) /\
    session_state w' !! "recording_session_id" = Some session_id /\
    session_state w' !! "recording_session_name" = Some (JStr session_name) /\
    exists rest,
      ui_calls_of (trace w')
      = (ui_calls_of (trace w) ++ st_success [Lit "✅ "; Val message] :: rest)%list.
Proof.
  intros Hresp Hstatus Hbody Hid Hmessage.
  destruct w as [ss fl ds tr cr dr].
  unfold start_recording_with_extension, start_request in *. run. run_in Hresp.
  rewrite Hresp. run. rewrite Hstatus. change (200 =? 200)%Z with true. run.
  rewrite Hbody. run. rewrite Hid. run. rewrite Hmessage. run.
  eexists. split; [reflexivity|]. run. split; [reflexivity|].
  split; [|split].
  - rewrite lookup_insert_ne by discriminate. apply lookup_insert_eq.
  - apply lookup_insert_eq.
  - eexists. unfold ui_calls_of. rewrite !omap_app. simpl.
    rewrite <- !app_assoc. reflexivity.
Qed.

Lemma start_recording_stores_session_witness :
  exists w',
    start_recording_with_extension "Login Flow" "" scenario_env
      (log (Request status_request) fresh_world) = (Ok tt, w') /\
    session_state w' !! "recording_session_id" = Some (JStr "s-42").
Proof.
  destruct (start_recording_stores_session scenario_env
              (log (Request status_request) fresh_world) "Login Flow" ""
              {| status_code := 200;
                 json_body := Some (JObj [("sessionId", JStr "s-42");
                                          ("message", JStr "Recording started")]);
                 text := "ok"; content_type := Some "application/json" |}
              [("sessionId", JStr "s-42"); ("message", JStr "Recording started")]
              (JStr "s-42") (JStr "Recording started"))
    as (w' & Hrun & _ & Hid & _);
    [reflexivity | reflexivity | reflexivity | reflexivity | reflexivity |].
  exists w'. split; assumption.
Defined.

(** X2. A start answered with status 200 and a body that lacks the session
    id changes nothing and reports an error; with the session id but
    without the message the two identifiers are stored all the same and the
    only thing shown is an error. *)
Theorem start_recording_incomplete_answer
    (e : env) (w : world) (session_name description : string) (r : response)
    (body : list (string * json)) :
  backend e (requests_made w) (start_request session_name description) = Responded r ->
  status_code r = 200%Z ->
  json_body r = Some (JObj body) ->
  (assoc "sessionId" body = None ->
   start_recording_with_extension session_name description e w
   = (Ok tt,
      log (Ui (st_error [Lit "❌ Error starting recording: "; ExnStr (KeyError "sessionId")]))
        (log (Request (start_request session_name description)) w))) /\
  (forall session_id,
      assoc "sessionId" body = Some session_id ->
      assoc "message" body = None ->
      exists w',
        start_recording_with_extension session_name description e w = (Ok tt, w') /\
        session_state w' =
          <["recording_session_name" := JStr session_name]>
            (<["recording_session_id" := session_id]> (session_state w)) /\
        ui_calls_of (trace w')
        = (ui_calls_of (trace w)
           ++ [st_error [Lit "❌ Error starting recording: "; ExnStr (KeyError "message")]])%list).
Proof.
  intros Hresp Hstatus Hbody.
  destruct w as [ss fl ds tr cr dr].
  unfold start_recording_with_extension, start_request in *. run. run_in Hresp.
  rewrite Hresp. run. rewrite Hstatus. change (200 =? 200)%Z with true. run.
  rewrite Hbody. run. split.
  - intros Hid. rewrite Hid. run. reflexivity.
  - intros session_id Hid Hmessage. rewrite Hid. run. rewrite Hmessage. run.
    eexists. split; [reflexivity|]. run. split; [reflexivity|].
    unfold ui_calls_of. rewrite !omap_app. simpl. now rewrite app_nil_r.
Qed.

Lemma start_recording_incomplete_answer_witness :
  exists w',
    start_recording_with_extension "Login Flow" ""
      (sample_env (ok_response (JObj [("sessionId", JStr "s-42")]))) fresh_world
    = (Ok tt, w') /\
    session_state w' !! "recording_session_id" = Some (JStr "s-42") /\
    ui_calls_of (trace w')
    = [st_error [Lit "❌ Error starting recording: "; ExnStr (KeyError "message")]].
Proof.
  destruct (proj2 (start_recording_incomplete_answer
                     (sample_env (ok_response (JObj [("sessionId", JStr "s-42")])))
                     fresh_world "Login Flow" ""
                     {| status_code := 200;
                        json_body := Some (JObj [("sessionId", JStr "s-42")]);
                        text := "ok"; content_type := Some "application/json" |}
                     [("sessionId", JStr "s-42")] eq_refl eq_refl eq_refl)
              (JStr "s-42") eq_refl eq_refl)
    as (w' & Hrun & Hstate & Hui).
  exists w'. split; [exact Hrun|]. split; [|exact Hui].
  rewrite Hstate. reflexivity.
Defined.

(** ** Connection gate *)

(** X3. Whatever the backend answers, the status returned by the
    connection check is consistent: readiness for recording and the overall
    flag are the HTTP flag, and the status is ready for tool execution
    exactly when both the HTTP flag and the WebSocket flag hold; so
    readiness for tool execution implies readiness for recording. *)
Theorem connection_status_consistent (e : env) (w : world) :
  exists status w',
    check_extension_connection e w = (Ok status, w') /\
    recording_ready status = api_connected status /\
    fully_connected status = api_connected status /\
    truthy (tool_execution_ready status)
    = truthy (api_connected status) && truthy (websocket_ready status).
Proof.
  unfold check_extension_connection.
  exec; do 2 eexists; (split; [reflexivity|]); repeat split;
    cbv [tool_execution_ready api_connected websocket_ready py_and];
    repeat match goal with
           | |- context [truthy ?x] => destruct (truthy x) eqn:?
           end; simpl; congruence.
Qed.

(** ** Polling *)

Lemma write_actions_shows_only (l : list json) :
  forall (i : Z) (e : env) (w : world),
  exists (r : result unit) (shown : list ui_call),
    write_actions i l e w = (r, log_all (map Ui shown) w) /\
    match r with Ok _ => True | Raise x => is_Exception x = true end.
Proof.
  induction l as [|a l IH]; intros i e w; destruct w as [ss fl ds tr cr dr].
  - exists (Ok tt), []. simpl. run. now rewrite app_nil_r.
  - cbn [write_actions]. run.
    destruct a as [| | | | |d]; run;
      try (exists (Raise TypeError), []; run; now rewrite app_nil_r).
    destruct (assoc "type" d) as [ty|]; run.
    + match goal with
      | |- context [write_actions ?j l ?e' ?w'] =>
          destruct (IH j e' w') as (r & shown & Hrun & Hr)
      end.
      rewrite Hrun. exists r. eexists (_ :: shown). run. simpl.
      rewrite <- app_assoc. split; [reflexivity|exact Hr].
    + eexists _, []. run. now rewrite app_nil_r.
Qed.

(** X4. Polling is read-only: for every backend and every session state it
    ends normally, leaves the session state and the files as they were and
    sends at most one request. *)
Theorem get_recording_status_read_only (e : env) (w : world) :
  exists w',
    get_recording_status e w = (Ok tt, w') /\
    session_state w' = session_state w /\
    files w' = files w /\
    length (requests_of (trace w')) <= S (length (requests_of (trace w))).
Proof.
  destruct w as [ss fl ds tr cr dr].
  unfold get_recording_status, write_recent_actions. run.
  destruct (ss !! "recording_session_id") as [session_id|] eqn:Hid;
    cbv beta iota delta [negb]; run.
  2: { eexists. split; [reflexivity|]. run. repeat split. lia. }
  rewrite ?Hid. run.
  repeat (first
            [ match goal with
              | |- context [write_actions ?i ?l ?e' ?w'] =>
                  destruct (write_actions_shows_only l i e' w')
                    as (r' & shown & Hrun & Hr);
                  rewrite Hrun; destruct r' as [[]|x];
                  [|run; unfold is_Exception in Hr; rewrite Hr]
              end
            | split_match ]; run);
    (eexists; split; [reflexivity|]; run; repeat split;
     unfold requests_of; rewrite ?omap_app, ?length_app; simpl;
     rewrite ?omap_app, ?length_app; simpl;
     try lia).
  all: try (replace (omap _ (map Ui shown)) with (@nil request);
            [simpl; lia|]; clear; induction shown; simpl; auto).
Qed.

(** ** Tool persister *)

Lemma fs_events_no_request (evs : list event) :
  Forall (fun ev => is_fs ev = true) evs -> requests_of evs = [].
Proof.
  induction 1 as [|ev evs Hev _ IH]; [reflexivity|].
  destruct ev; try discriminate Hev. exact IH.
Qed.

Lemma save_local_copy_no_request (e : env) (w : world)
    (tool_name tool_description : string) (tool_code : json) (session_id : string) :
  exists (saved : bool) (w' : world),
    save_local_copy tool_name tool_description tool_code session_id e w = (Ok saved, w') /\
    session_state w' = session_state w /\
    requests_of (trace w') = requests_of (trace w).
Proof.
  destruct (save_local_copy_total e w tool_name tool_description tool_code session_id)
    as (saved & evs & w' & Hrun & Hs & Ht & Hfs).
  exists saved, w'. split; [exact Hrun|]. split; [exact Hs|].
  rewrite Ht. unfold requests_of. rewrite omap_app.
  change (omap _ (Fs (Makedirs (tools_dir_of e)) :: evs)) with (requests_of evs).
  rewrite (fs_events_no_request evs Hfs). apply app_nil_r.
Qed.

Ltac use_local_copy_no_request :=
  match goal with
  | |- context [save_local_copy ?n ?d ?c ?s ?e ?w0] =>
      let saved := fresh "saved" in
      let w' := fresh "w'" in
      let Hrun := fresh "Hrun" in
      let Hs := fresh "Hs" in
      let Hreq := fresh "Hreq" in
      destruct (save_local_copy_no_request e w0 n d c s) as (saved & w' & Hrun & Hs & Hreq);
      rewrite Hrun; run; destruct w';
      run_in Hs; run_in Hreq;
      do 2 eexists; (split; [reflexivity|]);
      run; rewrite Hs, Hreq; split; [reflexivity|];
      unfold requests_of; rewrite ?omap_app, ?length_app; simpl; lia
  end.

(** X5. Saving never raises, whatever the inputs (the tool code need not
    even be a string), the backend and the disk: it returns a boolean,
    leaves the session state as it was and sends at most one request. *)
Theorem save_tool_to_resources_contained (e : env) (w : world)
    (tool_name tool_description : string) (tool_code : json) (session_id : string) :
  exists (saved : bool) (w' : world),
    save_tool_to_resources tool_name tool_description tool_code session_id e w
    = (Ok saved, w') /\
    session_state w' = session_state w /\
    length (requests_of (trace w')) <= S (length (requests_of (trace w))).
Proof.
  destruct w as [ss fl ds tr cr dr]. unfold save_tool_to_resources. run.
  destruct (String.eqb tool_name "" || negb (truthy tool_code) || String.eqb session_id "").
  { do 2 eexists. split; [reflexivity|]. run. split; [reflexivity|lia]. }
  destruct tool_code; run; try use_local_copy_no_request.
  destruct (backend e _ _) as [r|n]; run; [|use_local_copy_no_request].
  destruct (status_code r =? 200)%Z; run; use_local_copy_no_request.
Qed.

(** The local save when the disk refuses the next operation. *)
Lemma save_local_copy_blocked (e : env) (w : world)
    (tool_name tool_description : string) (tool_code : json) (session_id : string) :
  (forall op, disk_fails e (fs_ops_made w) op = true) ->
  exists w',
    save_local_copy tool_name tool_description tool_code session_id e w = (Ok false, w') /\
    files w' = files w /\
    session_state w' = session_state w.
Proof.
  intros Hblocked. destruct w as [ss fl ds tr cr dr]. run_in Hblocked.
  destruct (random_suffix_run e (Build_world ss fl ds tr cr dr))
    as (suffix & Hdraw & _ & _).
  unfold save_local_copy. run. rewrite Hdraw. run. rewrite Hblocked. run.
  eexists. split; [reflexivity|]. run. split; reflexivity.
Qed.

(** X6. The two files are not written atomically: when the disk accepts
    the directory and the source file and the write of the metadata file
    fails, the local save returns false and leaves the complete source file
    behind without a complete metadata file.  Under the metadata name there
    is what was there before when [open] was refused, and otherwise a
    partial document, which has replaced whatever was there; no other file
    is touched. *)
Theorem save_local_copy_leaves_orphan (e : env) (w : world)
    (tool_name tool_description : string) (tool_code : json) (session_id : string) :
  (forall op, disk_fails e (fs_ops_made w) op = false) ->
  (forall op, disk_fails e (S (fs_ops_made w)) op = false) ->
  (forall op, disk_fails e (S (S (fs_ops_made w))) op = true) ->
  exists suffix w',
    save_local_copy tool_name tool_description tool_code session_id e w = (Ok false, w') /\
    String.length suffix = 8 /\
    let src := path_join (tools_dir_of e) (source_name suffix) in
    let meta := path_join (tools_dir_of e) (metadata_name suffix) in
    let metadata :=
      metadata_file tool_name tool_description session_id suffix (clock e (clock_reads w)) in
    files w' !! src
    = Some (source_file tool_name tool_description tool_code session_id suffix) /\
    files w' !! meta
    = match written_before_failure e (S (S (fs_ops_made w))) with
      | None => files w !! meta
      | Some n => Some (Partial n metadata)
      end /\
    forall p, p <> src -> p <> meta -> files w' !! p = files w !! p.
Proof.
  intros Hfirst Hsecond Hthird. destruct w as [ss fl ds tr cr dr].
  run_in Hfirst. run_in Hsecond. run_in Hthird.
  destruct (random_suffix_run e (Build_world ss fl ds tr cr dr))
    as (suffix & Hdraw & Hlen & Halnum).
  exists suffix.
  unfold save_local_copy. run. rewrite Hdraw. run. rewrite Hfirst. run.
  rewrite !count_events_app. cbn [count_events is_fs].
  replace (count_events is_fs tr + (1 + 0)) with (S (count_events is_fs tr)) by lia.
  rewrite Hsecond. run.
  rewrite !count_events_app. cbn [count_events is_fs].
  replace (count_events is_fs tr + (1 + 0) + (1 + 0))
    with (S (S (count_events is_fs tr))) by lia.
  rewrite Hthird. run.
  fold (source_name suffix). rewrite (metadata_name_from_source suffix Halnum).
  pose proof (source_path_not_metadata_path
                (path_join (path_join (path_join (script_dir e) "..") "agent-resources")
                   "tools") suffix) as Hpaths.
  destruct (written_before_failure e (S (S (count_events is_fs tr)))) as [n|]; run;
    (eexists; split; [reflexivity|]; split; [exact Hlen|]); run;
    unfold tools_dir_of, source_file, metadata_file.
  - split; [|split].
    + rewrite lookup_insert_ne by congruence. apply lookup_insert_eq.
    + apply lookup_insert_eq.
    + intros p Hsrc Hmeta. now rewrite !lookup_insert_ne by congruence.
  - split; [|split].
    + apply lookup_insert_eq.
    + now apply lookup_insert_ne.
    + intros p Hsrc Hmeta. now rewrite lookup_insert_ne by congruence.
Qed.

Lemma save_local_copy_leaves_orphan_witness :
  exists w',
    save_local_copy "login-tool" "Logs into example.com" (JStr sample_code) "s-42"
      {| backend := fun _ _ => error_response;
         disk_fails := fun k _ => Nat.eqb k 2;
         written_before_failure := fun _ => Some 12;
         clock := fun _ => "2025-01-01 00:00:00";
         rng := fun k => 7 * k + 3;
         script_dir := "/app/pages" |}
      fresh_world = (Ok false, w') /\
    files w' !! "/app/pages/../agent-resources/tools/browser_tool_dkry5cjq.py"
    = Some (source_file "login-tool" "Logs into example.com" (JStr sample_code) "s-42"
              "dkry5cjq") /\
    files w' !! "/app/pages/../agent-resources/tools/browser_tool_dkry5cjq_metadata.json"
    = Some (Partial 12
              (metadata_file "login-tool" "Logs into example.com" "s-42" "dkry5cjq"
                 "2025-01-01 00:00:00")).
Proof.
  destruct (save_local_copy_leaves_orphan
              {| backend := fun _ _ => error_response;
                 disk_fails := fun k _ => Nat.eqb k 2;
                 written_before_failure := fun _ => Some 12;
                 clock := fun _ => "2025-01-01 00:00:00";
                 rng := fun k => 7 * k + 3;
                 script_dir := "/app/pages" |}
              fresh_world "login-tool" "Logs into example.com" (JStr sample_code) "s-42")
    as (suffix & w' & Hrun & _);
    [intros op; reflexivity | intros op; reflexivity | intros op; reflexivity |].
  exists w'. split; [exact Hrun|].
  vm_compute in Hrun. injection Hrun as <-. split; reflexivity.
Defined.

(** X7. With non-empty inputs, saving returns false only when both ways
    have failed: the registration request has failed and the local save
    made after it has returned false. *)
Theorem save_false_means_both_failed (e : env) (w w' : world)
    (tool_name tool_description tool_code session_id : string) :
  tool_name <> "" -> tool_code <> "" -> session_id <> "" ->
  save_tool_to_resources tool_name tool_description (JStr tool_code) session_id e w
  = (Ok false, w') ->
  let request :=
    register_request tool_name tool_description tool_code session_id
      (clock e (clock_reads w)) in
  request_failed (backend e (requests_made w) request) = true /\
  save_local_copy tool_name tool_description (JStr tool_code) session_id e
    (log (Request request) (tick_clock w)) = (Ok false, w').
Proof.
  intros Hn Hc Hs Hrun request. subst request.
  destruct (request_failed (backend e (requests_made w) _)) eqn:Hfailed.
  - split; [reflexivity|].
    now rewrite <- (save_after_failed_registration e w _ _ _ _ Hn Hc Hs Hfailed).
  - exfalso. unfold request_failed in Hfailed.
    destruct (backend e (requests_made w) _) as [r|n] eqn:Hresp; [|discriminate].
    apply negb_false_iff, Z.eqb_eq in Hfailed.
    destruct (save_after_successful_registration e w _ _ _ _ r Hn Hc Hs Hresp Hfailed)
      as (saved & w1 & _ & Hrun1).
    rewrite Hrun1 in Hrun. discriminate Hrun.
Qed.

Lemma save_false_means_both_failed_witness :
  let e := {| backend := fun _ _ => error_response;
              disk_fails := fun _ _ => true;
              written_before_failure := fun _ => None;
              clock := fun _ => "2025-01-01 00:00:00";
              rng := fun k => 7 * k + 3;
              script_dir := "/app/pages" |} in
  request_failed
    (backend e 0
       (register_request "login-tool" "Logs into example.com" sample_code "s-42"
          "2025-01-01 00:00:00")) = true.
Proof.
  intros e.
  refine (proj1 (save_false_means_both_failed e fresh_world
                   (snd (save_tool_to_resources "login-tool" "Logs into example.com"
                           (JStr sample_code) "s-42" e fresh_world))
                   "login-tool" "Logs into example.com" sample_code "s-42" _ _ _ _));
    [discriminate | discriminate | discriminate | reflexivity].
Defined.

(** X8. A true result does not mean that a local copy exists: when the
    registration request is answered with status 200 and the disk refuses
    the next operation, saving returns true and no file is written. *)
Theorem save_true_without_local_copy (e : env) (w : world)
    (tool_name tool_description tool_code session_id : string) (r : response) :
  tool_name <> "" -> tool_code <> "" -> session_id <> "" ->
  backend e (requests_made w)
    (register_request tool_name tool_description tool_code session_id
       (clock e (clock_reads w))) = Responded r ->
  status_code r = 200%Z ->
  (forall op, disk_fails e (fs_ops_made w) op = true) ->
  exists w',
    save_tool_to_resources tool_name tool_description (JStr tool_code) session_id e w
    = (Ok true, w') /\
    files w' = files w.
Proof.
  intros Hn Hc Hs Hresp Hstatus Hblocked.
  destruct (save_after_successful_registration e w _ _ _ _ r Hn Hc Hs Hresp Hstatus)
    as (saved & w' & Hlocal & Hrun).
  exists w'. split; [exact Hrun|].
  match type of Hlocal with
  | save_local_copy ?n ?d ?c ?s e ?w0 = _ =>
      destruct (save_local_copy_blocked e w0 n d c s) as (w'' & Hrun' & Hfiles & _)
  end.
  { intros op. destruct w as [ss fl ds tr cr dr]. run. run_in Hblocked.
    rewrite count_events_app. simpl. rewrite Nat.add_0_r. apply Hblocked. }
  rewrite Hlocal in Hrun'. injection Hrun' as _ ->.
  rewrite Hfiles. destruct w; reflexivity.
Qed.

Lemma save_true_without_local_copy_witness :
  exists w',
    save_tool_to_resources "login-tool" "Logs into example.com" (JStr sample_code) "s-42"
      {| backend := fun _ _ => ok_response JNull;
         disk_fails := fun _ _ => true;
         written_before_failure := fun _ => None;
         clock := fun _ => "2025-01-01 00:00:00";
         rng := fun k => 7 * k + 3;
         script_dir := "/app/pages" |}
      fresh_world = (Ok true, w') /\
    files w' = ∅.
Proof.
  apply (save_true_without_local_copy
           {| backend := fun _ _ => ok_response JNull;
              disk_fails := fun _ _ => true;
              written_before_failure := fun _ => None;
              clock := fun _ => "2025-01-01 00:00:00";
              rng := fun k => 7 * k + 3;
              script_dir := "/app/pages" |}
           fresh_world "login-tool" "Logs into example.com" sample_code "s-42"
           {| status_code := 200; json_body := Some JNull;
              text := "ok"; content_type := Some "application/json" |});
    [discriminate | discriminate | discriminate | reflexivity | reflexivity
    | intros op; reflexivity].
Defined.

(** ** Tool generator *)

(** A call that finds no generation in the session state sends exactly one
    generate-tool request, whatever comes back. *)
Lemma generate_tool_code_asks_when_absent (e : env) (w : world) (wd : generate_widgets)
    (session_id : string) :
  session_state w !! generation_key session_id = None ->
  exists r w',
    generate_tool_code wd session_id e w = (r, w') /\
    count_events is_generate_request (trace w')
    = count_events is_generate_request (trace w) + 1.
Proof.
  intros Hnone. destruct w as [ss fl ds tr cr dr]. run_in Hnone.
  unfold generate_tool_code, request_generation. run.
  rewrite Hnone. cbv beta iota zeta delta [negb]. run.
  destruct (backend e _ _) as [r|n]; run.
  2: { destruct n; run; do 2 eexists; (split; [reflexivity|]); run; count_start. }
  destruct (status_code r =? 200)%Z; run.
  2: { do 2 eexists; (split; [reflexivity|]); run; count_start. }
  destruct (json_body r) as [j|]; run.
  2: { do 2 eexists; (split; [reflexivity|]); run; count_start. }
  destruct j as [| | | | |d]; run;
    try (do 2 eexists; (split; [reflexivity|]); run; count_start).
  destruct (assoc "toolCode" d) as [code|]; run.
  2: { do 2 eexists; (split; [reflexivity|]); run; count_start. }
  rewrite lookup_insert_eq. run.
  match goal with
  | |- context [show_generated_tool wd session_id e ?w0] =>
      match w0 with
      | context [<[_ := JObj ?entry]> _] =>
          destruct (show_generated_tool_run e w0 wd session_id entry code
                      (JStr ("browser_automation_" +:+ utf8_prefix 6 session_id))
                      (JStr "Automated browser workflow generated from recorded session"))
            as (r1 & w1 & Hrun & Hr & _ & _ & Hcount);
          [apply lookup_insert_eq | reflexivity | reflexivity | reflexivity |]
      end
  end.
  rewrite Hrun. destruct w1 as [ss1 fl1 ds1 tr1 cr1 dr1]. run_in Hcount.
  destruct Hr as [-> | ->]; run; do 2 eexists; (split; [reflexivity|]); run;
    rewrite Hcount; count_start.
Qed.

(** X9. A generation that fails is not cached: when no generation is stored
    and the generate-tool request fails (no response, or a status other than
    200), the call ends normally, shows an error first and no code, leaves
    the session state as it was, and the next call for the same session
    sends the request again. *)
Theorem generate_failure_is_not_cached (e : env) (w : world) (wd1 wd2 : generate_widgets)
    (session_id : string) :
  session_state w !! generation_key session_id = None ->
  request_failed (backend e (requests_made w) (generate_request session_id)) = true ->
  exists msg rest w1,
    generate_tool_code wd1 session_id e w = (Ok tt, w1) /\
    w1 = log_all (Request (generate_request session_id) :: Ui (st_error msg) :: map Ui rest) w /\
    session_state w1 = session_state w /\
    codes_shown (trace w1) = codes_shown (trace w) /\
    exists r2 w2,
      generate_tool_code wd2 session_id e w1 = (r2, w2) /\
      count_events is_generate_request (trace w2)
      = count_events is_generate_request (trace w) + 2.
Proof.
  intros Hnone Hfailed.
  assert (exists msg rest,
             generate_tool_code wd1 session_id e w
             = (Ok tt, log_all (Request (generate_request session_id)
                                  :: Ui (st_error msg) :: map Ui rest) w) /\
             codes_shown (map Ui rest) = [])
    as (msg & rest & Hrun & Hrest).
  { destruct w as [ss fl ds tr cr dr]. run_in Hnone. run_in Hfailed.
    unfold generate_tool_code, request_generation, generate_request, request_failed in *.
    run. rewrite Hnone. cbv beta iota zeta delta [negb]. run.
    destruct (backend e _ _) as [r|n]; run.
    - destruct (status_code r =? 200)%Z; [discriminate Hfailed|]. run.
      exists [Lit "Failed to generate tool: "; Val (JNum (status_code r))], [].
      split; [|reflexivity]. simpl. rewrite <- app_assoc. reflexivity.
    - destruct n; run.
      + eexists _, []. split; [|reflexivity]. simpl. rewrite <- app_assoc. reflexivity.
      + eexists _, []. split; [|reflexivity]. simpl. rewrite <- app_assoc. reflexivity.
      + eexists _, [st_expander "🔧 Debug Information";
                    st_exception (RequestsError NetOther)].
        split; [|reflexivity]. simpl. rewrite <- !app_assoc. reflexivity. }
  exists msg, rest. eexists. split; [exact Hrun|]. split; [reflexivity|].
  set (w1 := log_all _ w).
  assert (session_state w1 = session_state w) as Hstate by (destruct w; reflexivity).
  assert (count_events is_generate_request (trace w1)
          = count_events is_generate_request (trace w) + 1) as Hcount1.
  { destruct (generate_tool_code_asks_when_absent e w wd1 session_id Hnone)
      as (r & w' & Hrun' & Hcount).
    rewrite Hrun in Hrun'. injection Hrun' as _ <-. exact Hcount. }
  split; [exact Hstate|]. split.
  - subst w1. destruct w as [ss fl ds tr cr dr]. run.
    rewrite codes_shown_app. rewrite !codes_shown_cons. rewrite Hrest.
    apply app_nil_r.
  - destruct (generate_tool_code_asks_when_absent e w1 wd2 session_id)
      as (r2 & w2 & Hrun2 & Hcount2).
    { now rewrite Hstate. }
    exists r2, w2. split; [exact Hrun2|]. rewrite Hcount2, Hcount1. lia.
Qed.

Lemma generate_failure_is_not_cached_witness :
  exists w1,
    generate_tool_code (sample_widgets false) "s-42" (sample_env error_response) fresh_world
    = (Ok tt, w1) /\
    session_state w1 = ∅ /\
    exists r2 w2,
      generate_tool_code (sample_widgets false) "s-42" (sample_env error_response) w1
      = (r2, w2) /\
      count_events is_generate_request (trace w2) = 2.
Proof.
  destruct (generate_failure_is_not_cached (sample_env error_response) fresh_world
              (sample_widgets false) (sample_widgets false) "s-42")
    as (msg & rest & w1 & Hrun & _ & Hstate & _ & r2 & w2 & Hrun2 & Hcount);
    [reflexivity | reflexivity |].
  exists w1. split; [exact Hrun|]. split; [exact Hstate|].
  exists r2, w2. split; [exact Hrun2|exact Hcount].
Defined.

(** ** Session catalog *)

(** X10. Deleting a session sends exactly one DELETE request for that
    session and never touches the session state or the files.  When the
    request fails the call ends normally after one error message (nothing
    is retried); when it is answered with status 200 a success message is
    shown and the script is rerun, so that the list is fetched again. *)
Theorem delete_session_outcomes (e : env) (w : world) (session_id : json) :
  exists r msg w',
    delete_session session_id e w = (r, w') /\
    w' = log (Ui msg) (log (Request (delete_request session_id)) w) /\
    if request_failed (backend e (requests_made w) (delete_request session_id))
    then r = Ok tt /\ (exists m, msg = st_error m)
    else r = Raise RerunException /\ msg = st_success [Lit "Session deleted successfully"].
Proof.
  destruct w as [ss fl ds tr cr dr].
  unfold delete_session, requests_delete, delete_request, request_failed. run.
  destruct (backend e _ _) as [r|n]; run.
  - destruct (status_code r =? 200)%Z; run; do 3 eexists;
      (split; [reflexivity|]); (split; [reflexivity|]); simpl; eauto.
  - do 3 eexists. split; [reflexivity|]. split; [reflexivity|]. eauto.
Qed.

(** ** Manual actions *)

(** X11. Without an active-session id a manual action is refused on the
    client: one error message, no request, nothing else changes. *)
Theorem add_manual_action_needs_session (e : env) (w : world)
    (action_type : string) (action_data : list (string * json)) :
  session_state w !! "recording_session_id" = None ->
  add_manual_action action_type action_data e w
  = (Ok tt, log (Ui (st_error [Lit "No active recording session"])) w).
Proof.
  intros Hidle. destruct w as [ss fl ds tr cr dr]. run_in Hidle.
  unfold add_manual_action. run. now rewrite Hidle.
Qed.

Lemma add_manual_action_needs_session_witness :
  add_manual_action "click" [("selector", JStr "Login")] (sample_env (ok_response JNull))
    fresh_world
  = (Ok tt, log (Ui (st_error [Lit "No active recording session"])) fresh_world).
Proof.
  apply (add_manual_action_needs_session (sample_env (ok_response JNull)) fresh_world
           "click" [("selector", JStr "Login")]).
  reflexivity.
Defined.

Lemma assoc_dict_set (k k' : string) (v : json) (d : list (string * json)) :
  assoc k' (dict_set k v d) = if String.eqb k' k then Some v else assoc k' d.
Proof.
  induction d as [|[k0 v0] d IH]; simpl.
  - destruct (String.eqb k' k); reflexivity.
  - destruct (String.eqb k k0) eqn:Hk0; simpl.
    + apply String.eqb_eq in Hk0. subst k0.
      destruct (String.eqb k' k); reflexivity.
    + destruct (String.eqb k' k0) eqn:Hk'0.
      * apply String.eqb_eq in Hk'0. subst k0.
        rewrite String.eqb_sym, Hk0. reflexivity.
      * exact IH.
Qed.

Lemma assoc_none_not_in (k : string) (d : list (string * json)) :
  ~ In k (map fst d) -> assoc k d = None.
Proof.
  induction d as [|[k0 v0] d IH]; simpl; [reflexivity|].
  intros Hnot. destruct (String.eqb k k0) eqn:Hk.
  - apply String.eqb_eq in Hk. subst k0. tauto.
  - apply IH. tauto.
Qed.

Lemma assoc_dict_update (extra : list (string * json)) :
  List.NoDup (map fst extra) ->
  forall (base : list (string * json)) (k : string),
    assoc k (dict_update base extra)
    = match assoc k extra with
      | Some v => Some v
      | None => assoc k base
      end.
Proof.
  unfold dict_update.
  induction extra as [|[k0 v0] extra IH]; intros Hnodup base k; [reflexivity|].
  inversion Hnodup as [|? ? Hnotin Hnodup']; subst.
  cbn [fold_left fst snd assoc]. rewrite (IH Hnodup'), assoc_dict_set.
  destruct (String.eqb k k0) eqn:Hk.
  - apply String.eqb_eq in Hk. subst k0.
    now rewrite (assoc_none_not_in k extra Hnotin).
  - reflexivity.
Qed.

(** X12. With an active session a manual action sends one POST to the
    action endpoint whose body carries every field of the action data and,
    unless the data has a field of that name, the action type under
    [type]. *)
Theorem add_manual_action_request (e : env) (w : world) (session_id : json)
    (action_type : string) (action_data : list (string * json)) :
  session_state w !! "recording_session_id" = Some session_id ->
  List.NoDup (map fst action_data) ->
  exists r w' body,
    add_manual_action action_type action_data e w = (r, w') /\
    requests_of (trace w')
    = (requests_of (trace w) ++ [action_request action_type action_data])%list /\
    req_body (action_request action_type action_data) = JsonBody (JObj body) /\
    (forall k v, assoc k action_data = Some v -> assoc k body = Some v) /\
    (assoc "type" action_data = None -> assoc "type" body = Some (JStr action_type)) /\
    session_state w' = session_state w.
Proof.
  intros Hactive Hnodup.
  assert (exists r w',
             add_manual_action action_type action_data e w = (r, w') /\
             requests_of (trace w')
             = (requests_of (trace w) ++ [action_request action_type action_data])%list /\
             session_state w' = session_state w)
    as (r & w' & Hrun & Hreq & Hstate).
  { destruct w as [ss fl ds tr cr dr]. run_in Hactive.
    unfold add_manual_action, action_request. run.
    rewrite Hactive. cbv beta iota zeta delta [negb]. run.
    exec; do 2 eexists; (split; [reflexivity|]); run; (split; [|reflexivity]);
      unfold requests_of; rewrite !omap_app; simpl;
      rewrite ?app_nil_r; reflexivity. }
  exists r, w'. eexists. split; [exact Hrun|]. split; [exact Hreq|].
  split; [reflexivity|]. split; [|split; [|exact Hstate]].
  - intros k v Hk. now rewrite (assoc_dict_update _ Hnodup), Hk.
  - intros Hk. now rewrite (assoc_dict_update _ Hnodup), Hk.
Qed.

Lemma add_manual_action_request_witness :
  exists r w',
    add_manual_action "click" [("selector", JStr "Login"); ("description", JStr "Click on Login")]
      (sample_env (ok_response JNull)) recording_world = (r, w') /\
    requests_of (trace w')
    = [action_request "click" [("selector", JStr "Login");
                               ("description", JStr "Click on Login")]].
Proof.
  destruct (add_manual_action_request (sample_env (ok_response JNull)) recording_world
              (JStr "s-42") "click"
              [("selector", JStr "Login"); ("description", JStr "Click on Login")])
    as (r & w' & body & Hrun & Hreq & _);
    [reflexivity | repeat constructor; simpl; intuition discriminate |].
  exists r, w'. split; [exact Hrun|exact Hreq].
Defined.

(** ** Auto-detection of a recent session *)

Lemma comprehension_contained (l : list json) (e : env) :
  forall w : world,
  exists r : result (list json),
    comprehension is_completed_with_actions l e w = (r, w) /\
    match r with Ok _ => True | Raise x => is_Exception x = true end.
Proof.
  induction l as [|s l IH]; intros w;
    [exists (Ok []); split; [reflexivity|exact I]|].
  destruct w as [ss fl ds tr cr dr].
  cbn [comprehension].
  set (rest_of := comprehension is_completed_with_actions l) in *.
  unfold is_completed_with_actions, py_gt_zero. run.
  repeat (first
            [ match goal with
              | |- context [rest_of e ?w'] =>
                  destruct (IH w') as (r' & Hrun & Hr);
                  rewrite Hrun; destruct r' as [rest|x]
              end
            | split_match ]; run);
    eexists; (split; [reflexivity|]);
    solve [exact I | reflexivity | exact Hr].
Qed.

Lemma comprehension_listed (l : list json) (e : env) :
  Forall listed_session l ->
  forall w : world,
    comprehension is_completed_with_actions l e w
    = (Ok (List.filter stopped_with_actions l), w).
Proof.
  induction 1 as [|s l (d & status & n & -> & Hstatus & Hcount) _ IH]; intros w;
    [reflexivity|].
  destruct w as [ss fl ds tr cr dr].
  cbn [comprehension List.filter stopped_with_actions].
  set (rest_of := comprehension is_completed_with_actions l) in *.
  unfold is_completed_with_actions, py_gt_zero. run.
  rewrite Hstatus, Hcount.
  destruct (py_eq_str status "stopped"); run; rewrite IH; run; [|reflexivity].
  destruct (0 <? n)%Z; reflexivity.
Qed.

Lemma requests_of_app (t1 t2 : list event) :
  requests_of (t1 ++ t2) = (requests_of t1 ++ requests_of t2)%list.
Proof. apply omap_app. Qed.

Lemma ui_calls_of_app (t1 t2 : list event) :
  ui_calls_of (t1 ++ t2) = (ui_calls_of t1 ++ ui_calls_of t2)%list.
Proof. apply omap_app. Qed.

Lemma requests_of_ui (shown : list ui_call) : requests_of (map Ui shown) = [].
Proof. induction shown as [|u shown IH]; [reflexivity|exact IH]. Qed.

Lemma ui_calls_of_ui (shown : list ui_call) : ui_calls_of (map Ui shown) = shown.
Proof.
  induction shown as [|u shown IH]; [reflexivity|].
  change (u :: ui_calls_of (map Ui shown) = u :: shown). now rewrite IH.
Qed.

Lemma count_requests_ui (shown : list ui_call) :
  count_events is_request (map Ui shown) = 0.
Proof. induction shown as [|u shown IH]; [reflexivity|exact IH]. Qed.

(** One run of the auto-detection: one request, then Streamlit calls only. *)
Lemma auto_detect_recent_session_run (e : env) (ss : gmap string json)
    (fl : gmap string content) (ds : gset string) (tr : list event) (cr dr : nat) :
  exists (ss' : gmap string json) (shown : list ui_call),
    auto_detect_recent_session e
      {| session_state := ss; files := fl; dirs := ds; trace := tr;
         clock_reads := cr; draws := dr |}
    = (Ok tt,
       {| session_state := ss'; files := fl; dirs := ds;
          trace := (tr ++ Request sessions_request :: map Ui shown)%list;
          clock_reads := cr; draws := dr |}) /\
    (forall k, k <> "last_completed_session" -> ss' !! k = ss !! k) /\
    (is_Some (ss !! "last_completed_session") -> ss' = ss).
Proof.
  unfold auto_detect_recent_session, iterate_sessions, sessions_request. run.
  repeat (first
            [ match goal with
              | |- context [comprehension is_completed_with_actions ?l ?e' ?w'] =>
                  destruct (comprehension_contained l e' w') as (r' & Hrun & Hr);
                  rewrite Hrun; destruct r' as [completed|x];
                  [|run; unfold is_Exception in Hr; rewrite Hr]
              end
            | split_match ]; run);
    (eexists;
     first [ exists []; split; [reflexivity|]
           | eexists (cons _ nil); split; [rewrite <- ?app_assoc; reflexivity|] ];
     split;
     [ intros k Hk; rewrite ?lookup_insert_ne by congruence; reflexivity
     | intros [v Hv]; simpl in *; congruence ]).
Qed.

(** X13. The auto-detection is contained: for every backend and every
    session state it ends normally, sends one request for the list of
    sessions, leaves the files alone, changes no entry of the session state
    other than [last_completed_session], and leaves the whole session state
    as it was when that entry is already there. *)
Theorem auto_detect_recent_session_contained (e : env) (w : world) :
  exists w',
    auto_detect_recent_session e w = (Ok tt, w') /\
    requests_of (trace w') = (requests_of (trace w) ++ [sessions_request])%list /\
    files w' = files w /\
    (forall k, k <> "last_completed_session" ->
               session_state w' !! k = session_state w !! k) /\
    (is_Some (session_state w !! "last_completed_session") ->
     session_state w' = session_state w).
Proof.
  destruct w as [ss fl ds tr cr dr].
  destruct (auto_detect_recent_session_run e ss fl ds tr cr dr)
    as (ss' & shown & Hrun & Hother & Hsame).
  eexists. split; [exact Hrun|]. run.
  split; [|split; [reflexivity|split; assumption]].
  change (Request sessions_request :: map Ui shown)
    with ([Request sessions_request] ++ map Ui shown)%list.
  rewrite !requests_of_app, requests_of_ui. reflexivity.
Qed.

Lemma filter_first (pre post : list json) (s : json) :
  Forall (fun x => stopped_with_actions x = false) pre ->
  stopped_with_actions s = true ->
  List.filter stopped_with_actions (pre ++ s :: post)
  = s :: List.filter stopped_with_actions post.
Proof.
  intros Hpre Hs. induction Hpre as [|x pre Hx _ IH]; simpl.
  - now rewrite Hs.
  - now rewrite Hx.
Qed.

Lemma filter_none (l : list json) :
  Forall (fun x => stopped_with_actions x = false) l ->
  List.filter stopped_with_actions l = [].
Proof.
  induction 1 as [|x l Hx _ IH]; simpl; [reflexivity|]. now rewrite Hx.
Qed.

(** X14. The auto-detection selects the first session of the answer that is
    stopped and has actions: when the answer has status 200, a truthy
    [success] and a list of session records, and [last_completed_session]
    is not in the session state, the call ends normally and stores that
    session under [last_completed_session], whether or not the record has
    the name that the notice shows. *)
Theorem auto_detect_selects_first_completed (e : env) (w : world) (r : response)
    (d : list (string * json)) (success : json) (pre post : list json) (s : json) :
  backend e (requests_made w) sessions_request = Responded r ->
  status_code r = 200%Z ->
  json_body r = Some (JObj d) ->
  assoc "success" d = Some success ->
  truthy success = true ->
  assoc "sessions" d = Some (JList (pre ++ s :: post)) ->
  Forall listed_session (pre ++ s :: post) ->
  Forall (fun x => stopped_with_actions x = false) pre ->
  stopped_with_actions s = true ->
  session_state w !! "last_completed_session" = None ->
  exists w',
    auto_detect_recent_session e w = (Ok tt, w') /\
    session_state w' = <["last_completed_session" := s]> (session_state w).
Proof.
  intros Hback Hstatus Hbody Hsuccess Htruthy Hsessions Hlisted Hpre Hs Habsent.
  destruct w as [ss fl ds tr cr dr].
  run_in Hback. run_in Habsent. unfold sessions_request in Hback.
  assert (Hnonempty : truthy (JList (pre ++ s :: post)) = true)
    by (destruct pre; reflexivity).
  unfold auto_detect_recent_session, iterate_sessions. run.
  rewrite Hback. run. rewrite Hstatus, Z.eqb_refl. run. rewrite Hbody. run.
  rewrite Hsuccess. run. rewrite Htruthy. run.
  repeat (first [rewrite Hsessions | rewrite Hnonempty]; run).
  rewrite (comprehension_listed _ e Hlisted), (filter_first pre post s Hpre Hs). run.
  rewrite Habsent. cbv beta iota zeta delta [negb]. run.
  repeat (split_match; run); eexists; (split; [reflexivity|]); reflexivity.
Qed.

Lemma auto_detect_selects_first_completed_witness :
  exists w',
    auto_detect_recent_session
      (sample_env
         (ok_response
            (JObj [("success", JBool true);
                   ("sessions",
                    JList [JObj [("name", JStr "Draft"); ("status", JStr "recording");
                                 ("actionsCount", JNum 2)];
                           sample_session;
                           JObj [("name", JStr "Older"); ("status", JStr "stopped");
                                 ("actionsCount", JNum 9)]])])))
      fresh_world
    = (Ok tt, w') /\
    session_state w' = <["last_completed_session" := sample_session]> ∅.
Proof.
  eapply (auto_detect_selects_first_completed _ fresh_world _ _ (JBool true)
            [JObj [("name", JStr "Draft"); ("status", JStr "recording");
                   ("actionsCount", JNum 2)]]
            [JObj [("name", JStr "Older"); ("status", JStr "stopped");
                   ("actionsCount", JNum 9)]]
            sample_session);
    try reflexivity.
  - repeat constructor; do 3 eexists; (split; [reflexivity|split; reflexivity]).
  - repeat constructor.
Defined.

(** X15. The auto-detection selects nothing else: when no session record of
    the answer is stopped with actions (a session that is still recording,
    one with the status [completed], one without actions), the call only
    sends its request: nothing is stored and nothing is shown. *)
Theorem auto_detect_skips_unfinished (e : env) (w : world) (r : response)
    (d : list (string * json)) (l : list json) :
  backend e (requests_made w) sessions_request = Responded r ->
  json_body r = Some (JObj d) ->
  assoc "sessions" d = Some (JList l) ->
  Forall listed_session l ->
  Forall (fun x => stopped_with_actions x = false) l ->
  auto_detect_recent_session e w = (Ok tt, log (Request sessions_request) w).
Proof.
  intros Hback Hbody Hsessions Hlisted Hnone.
  destruct w as [ss fl ds tr cr dr].
  run_in Hback. unfold sessions_request in *.
  unfold auto_detect_recent_session, iterate_sessions. run.
  rewrite Hback. run.
  destruct (status_code r =? 200)%Z; run; [|reflexivity].
  rewrite Hbody. run.
  destruct (assoc "success" d) as [success|]; run; [|reflexivity].
  destruct (truthy success); run; [|reflexivity].
  rewrite Hsessions. run.
  destruct (truthy (JList l)); run; [|reflexivity].
  rewrite ?Hsessions. run.
  rewrite (comprehension_listed _ e Hlisted), (filter_none l Hnone). reflexivity.
Qed.

Lemma auto_detect_skips_unfinished_witness :
  auto_detect_recent_session
    (sample_env
       (ok_response
          (JObj [("success", JBool true);
                 ("sessions",
                  JList [JObj [("name", JStr "Done"); ("status", JStr "completed");
                               ("actionsCount", JNum 4)];
                         JObj [("name", JStr "Empty"); ("status", JStr "stopped");
                               ("actionsCount", JNum 0)]])])))
    fresh_world
  = (Ok tt, log (Request sessions_request) fresh_world).
Proof.
  eapply (auto_detect_skips_unfinished _ fresh_world); try reflexivity.
  - repeat constructor; do 3 eexists; (split; [reflexivity|split; reflexivity]).
  - repeat constructor.
Defined.

(** ** The page *)

(** X16. The page needs the backend: when the health check fails (no
    response, or a status other than 200), [recorder_tab] ends normally
    without running any of its three tabs, so what it does is the same
    whatever the tabs are; it has sent the sessions request of the
    auto-detection and the health request and nothing else, it has touched
    no file, and the last two things shown are the error and the command
    that starts the backend. *)
Theorem recorder_tab_needs_backend (e : env) (w : world) :
  request_failed (backend e (S (requests_made w)) health_request) = true ->
  exists (w' : world) (shown : list ui_call),
    (forall show_recorder_interface show_sessions_interface show_tools_interface : M unit,
        recorder_tab show_recorder_interface show_sessions_interface
          show_tools_interface e w
        = (Ok tt, w')) /\
    requests_of (trace w')
    = (requests_of (trace w) ++ [sessions_request; health_request])%list /\
    ui_calls_of (trace w')
    = (ui_calls_of (trace w) ++ shown ++
       [st_error [Lit "🚨 Backend API is not available. Please start the backend server first."];
        st_code (JStr "npm start")])%list /\
    files w' = files w.
Proof.
  intros Hfail. destruct w as [ss fl ds tr cr dr]. run_in Hfail.
  unfold health_request in Hfail.
  destruct (auto_detect_recent_session_run e ss fl ds tr cr dr)
    as (ss' & detected & Hrun & _ & _).
  assert (Hindex : forall t : list event,
             count_events is_request t = 0 ->
             count_events is_request
               (tr ++ (Request sessions_request :: map Ui detected) ++ t)
             = S (count_events is_request tr)).
  { intros t Ht. rewrite !count_events_app. cbn [count_events is_request].
    rewrite count_requests_ui, Ht. lia. }
  assert (Hreqs : forall t : list event,
             requests_of
               (tr ++ (Request sessions_request :: map Ui detected) ++ t)
             = (requests_of tr ++ sessions_request :: requests_of t)%list).
  { intros t.
    change (Request sessions_request :: map Ui detected)
      with ([Request sessions_request] ++ map Ui detected)%list.
    rewrite !requests_of_app, requests_of_ui. reflexivity. }
  assert (Huis : forall t : list event,
             ui_calls_of
               (tr ++ (Request sessions_request :: map Ui detected) ++ t)
             = (ui_calls_of tr ++ detected ++ ui_calls_of t)%list).
  { intros t.
    change (Request sessions_request :: map Ui detected)
      with ([Request sessions_request] ++ map Ui detected)%list.
    rewrite !ui_calls_of_app, ui_calls_of_ui. reflexivity. }
  assert (Hrun' : exists w' : world,
             (forall t1 t2 t3 : M unit,
                 recorder_tab t1 t2 t3 e
                   {| session_state := ss; files := fl; dirs := ds; trace := tr;
                      clock_reads := cr; draws := dr |}
                 = (Ok tt, w')) /\
             exists t : list event,
               w' = {| session_state := ss'; files := fl; dirs := ds;
                       trace := (tr ++ (Request sessions_request :: map Ui detected) ++ t)%list;
                       clock_reads := cr; draws := dr |} /\
               requests_of t = [health_request] /\
               exists before,
                 ui_calls_of t
                 = (before ++
                    [st_error [Lit "🚨 Backend API is not available. Please start the backend server first."];
                     st_code (JStr "npm start")])%list).
  { destruct (backend e (S (count_events is_request tr)) _) as [r|n] eqn:Hback;
      cbn [request_failed] in Hfail;
      (eexists; split;
       [ intros t1 t2 t3; unfold recorder_tab; run; rewrite Hrun; run;
         rewrite <- !app_assoc;
         rewrite Hindex by reflexivity;
         rewrite Hback; run;
         try (destruct (status_code r =? 200)%Z; [discriminate|]);
         cbv beta iota zeta delta [negb]; run;
         rewrite <- !app_assoc; reflexivity
       | eexists; split; [reflexivity|]; split; [reflexivity|];
         eexists [_; _; _; _]; reflexivity ]). }
  destruct Hrun' as (w' & Hall & t & -> & Hreq & before & Hui).
  exists
    {| session_state := ss'; files := fl; dirs := ds;
       trace := (tr ++ (Request sessions_request :: map Ui detected) ++ t)%list;
       clock_reads := cr; draws := dr |}, (detected ++ before)%list.
  split; [exact Hall|]. run.
  rewrite Hreqs, Huis, Hreq, Hui, <- !app_assoc. auto.
Qed.

Lemma recorder_tab_needs_backend_witness :
  exists (w' : world) (shown : list ui_call),
    (forall show_recorder_interface show_sessions_interface show_tools_interface : M unit,
        recorder_tab show_recorder_interface show_sessions_interface
          show_tools_interface (sample_env error_response) fresh_world
        = (Ok tt, w')) /\
    requests_of (trace w') = [sessions_request; health_request] /\
    ui_calls_of (trace w')
    = (shown ++
       [st_error [Lit "🚨 Backend API is not available. Please start the backend server first."];
        st_code (JStr "npm start")])%list /\
    files w' = ∅.
Proof.
  apply (recorder_tab_needs_backend (sample_env error_response) fresh_world).
  reflexivity.
Defined.

(** ** The active generation *)

Lemma prefix_app (p s : string) : String.prefix p (p +:+ s) = true.
Proof.
  induction p as [|c p IH]; [now destruct s|].
  change (String c p +:+ s) with (String c (p +:+ s)). cbn [String.prefix].
  destruct (ascii_dec c c); [exact IH|congruence].
Qed.

Lemma replace_absent (old new : string) (s : string) :
  contains old s = false -> replace_from old new 0 s = s.
Proof.
  induction s as [|c s IH]; [reflexivity|].
  cbn [contains replace_from]. intros H.
  apply orb_false_iff in H as [Hprefix Hrest].
  rewrite Hprefix, (IH Hrest). reflexivity.
Qed.

Lemma replace_from_skip (old new : string) (p s : string) :
  replace_from old new (String.length p) (p +:+ s) = replace_from old new 0 s.
Proof.
  induction p as [|c p IH]; [reflexivity|].
  change (String c p +:+ s) with (String c (p +:+ s)).
  cbn [String.length replace_from]. exact IH.
Qed.

(** X17. The scan for an active generation gives back the session: when
    no earlier key of the session state starts with [tool_generation_] and
    the session id does not contain that text, the key under which
    [generate_tool_code] stores the generation of a session is found and
    stripped to the id of that session. *)
Theorem find_active_generation_round_trip (pre post : list string) (session_id : string) :
  Forall (fun key => String.prefix "tool_generation_" key = false) pre ->
  contains "tool_generation_" session_id = false ->
  find_active_generation (pre ++ generation_key session_id :: post) = Some session_id.
Proof.
  intros Hpre Hid. induction Hpre as [|key pre Hkey _ IH].
  - cbn [app find_active_generation]. unfold generation_key.
    rewrite prefix_app. f_equal. unfold replace.
    change ("tool_generation_" +:+ session_id)
      with (String "t" ("ool_generation_" +:+ session_id)).
    cbn [replace_from].
    change (String "t" ("ool_generation_" +:+ session_id))
      with ("tool_generation_" +:+ session_id).
    rewrite prefix_app.
    change (String.length "tool_generation_" - 1) with (String.length "ool_generation_").
    rewrite replace_from_skip. now apply replace_absent.
  - cbn [app find_active_generation]. now rewrite Hkey.
Qed.

Lemma find_active_generation_round_trip_witness :
  find_active_generation
    ["recording_session_id"; "tools_tab_tool_name_s-42"; generation_key "s-42";
     "tool_generation_s-7"]
  = Some "s-42".
Proof.
  apply (find_active_generation_round_trip
           ["recording_session_id"; "tools_tab_tool_name_s-42"] ["tool_generation_s-7"] "s-42").
  - repeat constructor.
  - reflexivity.
Defined.

Lemma prefix_refl (s : string) : String.prefix s s = true.
Proof.
  induction s as [|c s IH]; [reflexivity|].
  cbn [String.prefix]. destruct (ascii_dec c c); [exact IH|congruence].
Qed.

Lemma contains_app (p s : string) : contains s (p +:+ s) = true.
Proof.
  induction p as [|c p IH].
  - change ("" +:+ s) with s. destruct s as [|c s]; [reflexivity|].
    cbn [contains]. now rewrite prefix_refl.
  - change (String c p +:+ s) with (String c (p +:+ s)).
    cbn [contains]. rewrite IH. apply orb_true_r.
Qed.

Lemma delete_matching_run (active_generation : string) (e : env)
    (fl : gmap string content) (ds : gset string) (tr : list event) (cr dr : nat)
    (keys : list string) :
  forall ss : gmap string json,
    NoDup keys ->
    Forall (fun key => is_Some (ss !! key)) keys ->
    delete_matching active_generation keys e
      {| session_state := ss; files := fl; dirs := ds; trace := tr;
         clock_reads := cr; draws := dr |}
    = (Ok tt,
       {| session_state := clear_state active_generation keys ss;
          files := fl; dirs := ds; trace := tr; clock_reads := cr; draws := dr |}).
Proof.
  induction keys as [|key keys IH]; intros ss Hnodup Hpresent; [reflexivity|].
  apply NoDup_cons in Hnodup as [Hfresh Hnodup].
  apply Forall_cons in Hpresent as [[v Hv] Hpresent].
  cbn [delete_matching]. unfold clear_state. cbn [fold_left].
  fold (clear_state active_generation keys
          (if contains active_generation key then delete key ss else ss)).
  run. destruct (contains active_generation key); run.
  - rewrite Hv. run. apply IH; [exact Hnodup|].
    apply Forall_forall. intros k Hk.
    rewrite lookup_delete_ne by (intros ->; contradiction).
    revert k Hk. apply Forall_forall. exact Hpresent.
  - now apply IH.
Qed.

Lemma clear_state_lookup (active_generation : string) (keys : list string) :
  forall (ss : gmap string json) (k : string),
    clear_state active_generation keys ss !! k
    = if contains active_generation k && bool_decide (k ∈ keys) then None else ss !! k.
Proof.
  induction keys as [|key keys IH]; intros ss k.
  - cbn [clear_state fold_left]. now rewrite andb_false_r.
  - unfold clear_state. cbn [fold_left].
    fold (clear_state active_generation keys
            (if contains active_generation key then delete key ss else ss)).
    rewrite IH.
    destruct (contains active_generation k) eqn:Hk; cbn [andb].
    + destruct (decide (k = key)) as [->|Hne].
      * rewrite Hk. rewrite (bool_decide_eq_true_2 (key ∈ key :: keys))
          by (apply elem_of_cons; left; reflexivity).
        case_bool_decide; [reflexivity|apply lookup_delete_eq].
      * rewrite (bool_decide_ext (k ∈ key :: keys) (k ∈ keys))
          by (rewrite elem_of_cons; tauto).
        destruct (bool_decide (k ∈ keys)); [reflexivity|].
        destruct (contains active_generation key); [|reflexivity].
        now rewrite lookup_delete_ne.
    + destruct (contains active_generation key) eqn:Hkey; [|reflexivity].
      rewrite lookup_delete_ne; [reflexivity|]. intros ->. congruence.
Qed.

(** The button "Generate Different Tool" after a call that ended normally. *)
Lemma show_active_generation_clear (e : env) (w w1 : world) (wd : generate_widgets)
    (active_generation : string) :
  generate_tool_code wd active_generation e w = (Ok tt, w1) ->
  exists ss2 : gmap string json,
    show_active_generation active_generation wd true e w
    = (Raise RerunException, with_session_state ss2 w1) /\
    forall k, ss2 !! k
              = if contains active_generation k then None else session_state w1 !! k.
Proof.
  intros Hrun. destruct w1 as [ss1 fl1 ds1 tr1 cr1 dr1].
  exists (clear_state active_generation (map fst (map_to_list ss1)) ss1). split.
  - unfold show_active_generation, state_keys. run. rewrite Hrun. run.
    rewrite delete_matching_run; [reflexivity| |].
    + apply NoDup_fst_map_to_list.
    + apply Forall_forall. intros k Hk.
      apply list_elem_of_fmap in Hk as ([k' v] & -> & Hkv).
      apply elem_of_map_to_list in Hkv. now exists v.
  - intros k. run. rewrite clear_state_lookup.
    destruct (contains active_generation k); cbn [andb]; [|reflexivity].
    case_bool_decide as Hin; [reflexivity|].
    destruct (ss1 !! k) as [v|] eqn:Hv; [|reflexivity].
    exfalso. apply Hin. apply list_elem_of_fmap. exists (k, v).
    split; [reflexivity|]. now apply elem_of_map_to_list.
Qed.

(** X18. "Generate Different Tool" clears by containment: pressed after
    the tool of the active generation was shown normally, the button ends
    the run with a rerun and removes from the session state every entry
    whose key contains the session id (the generation, the widget values of
    that session, and any other key in which the id occurs) and no other
    entry; the log and the files stay as the call left them. *)
Theorem generate_different_tool_clears (e : env) (w w1 : world) (wd : generate_widgets)
    (active_generation : string) :
  generate_tool_code wd active_generation e w = (Ok tt, w1) ->
  exists w2,
    show_active_generation active_generation wd true e w = (Raise RerunException, w2) /\
    (forall k, session_state w2 !! k
               = if contains active_generation k then None else session_state w1 !! k) /\
    trace w2 = trace w1 /\
    files w2 = files w1.
Proof.
  intros Hrun.
  destruct (show_active_generation_clear e w w1 wd active_generation Hrun)
    as (ss2 & Hclear & Hlookup).
  exists (with_session_state ss2 w1). split; [exact Hclear|].
  destruct w1 as [ss1 fl1 ds1 tr1 cr1 dr1]. run. run_in Hlookup. auto.
Qed.

(** X19. After "Generate Different Tool" the tool is generated again: the
    generation of the session is no longer in the session state, so the
    next [generate_tool_code] for the same session sends a generate-tool
    request although the code had been cached. *)
Theorem generate_different_tool_regenerates (e : env) (w w1 : world)
    (wd wd' : generate_widgets) (active_generation : string) :
  generate_tool_code wd active_generation e w = (Ok tt, w1) ->
  exists w2 r3 w3,
    show_active_generation active_generation wd true e w = (Raise RerunException, w2) /\
    session_state w2 !! generation_key active_generation = None /\
    generate_tool_code wd' active_generation e w2 = (r3, w3) /\
    count_events is_generate_request (trace w3)
    = count_events is_generate_request (trace w1) + 1.
Proof.
  intros Hrun.
  destruct (show_active_generation_clear e w w1 wd active_generation Hrun)
    as (ss2 & Hclear & Hlookup).
  assert (Hgone : session_state (with_session_state ss2 w1)
                  !! generation_key active_generation = None).
  { destruct w1 as [ss1 fl1 ds1 tr1 cr1 dr1]. run.
    rewrite Hlookup. unfold generation_key. now rewrite contains_app. }
  destruct (generate_tool_code_asks_when_absent e (with_session_state ss2 w1) wd'
              active_generation Hgone)
    as (r3 & w3 & Hnext & Hcount).
  exists (with_session_state ss2 w1), r3, w3.
  split; [exact Hclear|]. split; [exact Hgone|]. split; [exact Hnext|].
  rewrite Hcount. destruct w1 as [ss1 fl1 ds1 tr1 cr1 dr1]. reflexivity.
Qed.

Lemma generate_different_tool_clears_witness :
  let e := sample_env (ok_response (JObj [("toolCode", JStr sample_code)])) in
  let w1 := snd (generate_tool_code (sample_widgets false) "s-42" e fresh_world) in
  generate_tool_code (sample_widgets false) "s-42" e fresh_world = (Ok tt, w1) /\
  exists w2,
    show_active_generation "s-42" (sample_widgets false) true e fresh_world
    = (Raise RerunException, w2) /\
    (forall k, session_state w2 !! k
               = if contains "s-42" k then None else session_state w1 !! k) /\
    trace w2 = trace w1 /\
    files w2 = files w1.
Proof.
  cbv zeta.
  assert (Hrun : generate_tool_code (sample_widgets false) "s-42"
                   (sample_env (ok_response (JObj [("toolCode", JStr sample_code)])))
                   fresh_world
                 = (Ok tt,
                    snd (generate_tool_code (sample_widgets false) "s-42"
                           (sample_env (ok_response (JObj [("toolCode", JStr sample_code)])))
                           fresh_world)))
    by (vm_compute; reflexivity).
  split; [exact Hrun|].
  exact (generate_different_tool_clears _ _ _ _ _ Hrun).
Defined.

Lemma generate_different_tool_regenerates_witness :
  let e := sample_env (ok_response (JObj [("toolCode", JStr sample_code)])) in
  let w1 := snd (generate_tool_code (sample_widgets false) "s-42" e fresh_world) in
  generate_tool_code (sample_widgets false) "s-42" e fresh_world = (Ok tt, w1) /\
  count_events is_generate_request (trace w1) = 1 /\
  exists w2 r3 w3,
    show_active_generation "s-42" (sample_widgets false) true e fresh_world
    = (Raise RerunException, w2) /\
    session_state w2 !! generation_key "s-42" = None /\
    generate_tool_code (sample_widgets true) "s-42" e w2 = (r3, w3) /\
    count_events is_generate_request (trace w3) = 2.
Proof.
  cbv zeta.
  assert (Hrun : generate_tool_code (sample_widgets false) "s-42"
                   (sample_env (ok_response (JObj [("toolCode", JStr sample_code)])))
                   fresh_world
                 = (Ok tt,
                    snd (generate_tool_code (sample_widgets false) "s-42"
                           (sample_env (ok_response (JObj [("toolCode", JStr sample_code)])))
                           fresh_world)))
    by (vm_compute; reflexivity).
  split; [exact Hrun|]. split; [vm_compute; reflexivity|].
  destruct (generate_different_tool_regenerates _ _ _ (sample_widgets false)
              (sample_widgets true) _ Hrun)
    as (w2 & r3 & w3 & Hclear & Hgone & Hnext & Hcount).
  exists w2, r3, w3. split; [exact Hclear|]. split; [exact Hgone|].
  split; [exact Hnext|]. rewrite Hcount. vm_compute. reflexivity.
Defined.
